(** * mlgit: the registry client [MLGitClient] of [src/mlgit/mlgit_client.py]

    A shallow embedding of the client's methods as functions in a state and
    exception monad over an explicit world (local file system, remote
    repository, Python object heap, fault schedule of the transport), and the
    properties of the path addressing, the artifact staging, the version
    logging and the backtest merge. *)

From stdpp Require Import gmap strings list fin_maps sorting pretty.
From Stdlib Require Import ZArith Ascii.

#[local] Set Warnings "-register-all".

Local Open Scope Z_scope.
Local Open Scope string_scope.
Local Open Scope list_scope.

(** ** Python values *)

Module Py.

(** The exceptions the client and its collaborators raise.  [NotFound],
    [TransportFailure] and [Timeout] come from the remote store, the others
    are Python's own. *)
Inductive error :=
  | NotFound
  | TransportFailure
  | Timeout
  | ParseError
  | FileExistsError
  | FileNotFoundError
  | IsADirectoryError
  | NotADirectoryError
  | TypeError
  | ValueError
  | KeyError
  | AttributeError
  | NameError.

#[global] Instance error_eq_dec : EqDecision error.
Proof. solve_decision. Defined.

(** What a call does: it returns a value or raises. *)
Inductive outcome (A : Type) :=
  | Return (a : A)
  | Raise (e : error).
Arguments Return {A} a.
Arguments Raise {A} e.

Definition returned {A} (o : outcome A) : bool :=
  match o with Return _ => true | Raise _ => false end.

(** JSON documents, as [json.loads] returns them and [json.dump] takes them. *)
Inductive json :=
  | JNull
  | JBool (b : bool)
  | JNum (n : Z)
  | JStr (s : string)
  | JArr (l : list json)
  | JObj (l : list (string * json)).

(** [list.append]: only a list has it. *)
Definition append (j : json) (x : json) : outcome json :=
  match j with
  | JArr l => Return (JArr (l ++ [x]))
  | _ => Raise AttributeError
  end.

(** ['/'.join(l)] is [String.concat "/" l]. *)
Definition join (sep : string) (l : list string) : string := String.concat sep l.

(** [posixpath.join(a, b)]. *)
Definition starts_with_slash (s : string) : bool :=
  match s with
  | String c _ => bool_decide (c = "/"%char)
  | EmptyString => false
  end.

Fixpoint ends_with_slash (s : string) : bool :=
  match s with
  | EmptyString => false
  | String c EmptyString => bool_decide (c = "/"%char)
  | String _ s' => ends_with_slash s'
  end.

Definition os_path_join (a b : string) : string :=
  if starts_with_slash b then b
  else if bool_decide (a = "") || ends_with_slash a then a +:+ b
  else a +:+ "/" +:+ b.

(** [posixpath.basename(p)]: what follows the last slash. *)
Fixpoint basename_aux (acc : string) (s : string) : string :=
  match s with
  | EmptyString => acc
  | String c s' =>
      if bool_decide (c = "/"%char) then basename_aux s' s' else basename_aux acc s'
  end.

Definition basename (p : string) : string := basename_aux p p.

(** [p] lies inside directory [d]: the path of [p] relative to [d]. *)
Fixpoint strip_prefix (d p : string) : option string :=
  match d, p with
  | EmptyString, _ => Some p
  | String c d', String c' p' => if bool_decide (c = c') then strip_prefix d' p' else None
  | String _ _, EmptyString => None
  end.

Definition relative_to (d p : string) : option string :=
  if bool_decide (d = "") then Some p
  else match strip_prefix d p with
       | Some rest =>
           if ends_with_slash d then Some rest
           else match rest with
                | String c r => if bool_decide (c = "/"%char) then Some r else None
                | EmptyString => None
                end
       | None => None
       end.

(** A path segment: a string without a slash. *)
Fixpoint no_slash (s : string) : bool :=
  match s with
  | EmptyString => true
  | String c s' => negb (bool_decide (c = "/"%char)) && no_slash s'
  end.

(** [p] is the entry of directory [d] with some name: [d], a slash if [d]
    does not end in one, and a name. *)
Definition entry_of (d p : string) : bool :=
  match relative_to d p with
  | Some name => no_slash name && negb (bool_decide (name = ""))
  | None => false
  end.

(** The directories above [p], outermost first: what precedes each slash
    of [p] but the first character. *)
Fixpoint ancestors_aux (above : string) (s : string) : list string :=
  match s with
  | EmptyString => []
  | String c s' =>
      (if bool_decide (c = "/"%char) && negb (bool_decide (above = ""))
       then [above] else [])
      ++ ancestors_aux (above +:+ String c EmptyString) s'
  end.

Definition ancestors (p : string) : list string := ancestors_aux "" p.

End Py.
Export Py.

(** [outcome] is the exception monad of pure Python expressions. *)
#[global] Instance outcome_ret : MRet outcome := λ A a, Return a.
#[global] Instance outcome_bind : MBind outcome := λ A B f o,
  match o with
  | Return a => f a
  | Raise e => Raise e
  end.
#[global] Instance outcome_fmap : FMap outcome := λ A B f o,
  match o with
  | Return a => Return (f a)
  | Raise e => Raise e
  end.

(** ** The part of pandas the client uses *)

Module Pandas.

(** A column label; [columns.astype(str)] turns every label into a string. *)
Inductive label :=
  | LStr (s : string)
  | LInt (n : Z).

#[global] Instance label_eq_dec : EqDecision label.
Proof. solve_decision. Defined.

Definition str (l : label) : string :=
  match l with
  | LStr s => s
  | LInt n => pretty n
  end.

(** A frequency, as far as the client depends on it: the timestamp
    (nanoseconds since the epoch) at which the period with a given ordinal
    starts.  How pandas computes it (calendar frequencies, multiples of a
    base unit) is pandas' own; nothing here depends on it. *)
Record freq := mkFreq { start_time : Z → Z }.

(** A point in time: a timestamp (nanoseconds since the epoch), a period
    (its ordinal and its frequency) or NaT. *)
Inductive stamp :=
  | Timestamp (t : Z)
  | Period (ordinal : Z) (f : freq)
  | NaT.

(** [Period.to_timestamp()]: the start of the period. *)
Definition period_start (ordinal : Z) (f : freq) : Z := start_time f ordinal.

(** A cell: an integer, a timestamp, a period, a missing value, or text.
    Text is kept by what pandas reads it as: [CTimeText t] and
    [CPeriodText p f] are the strings [to_csv] writes for the timestamp [t]
    and for the period [p] of frequency [f]; [CStr s] is any text that
    pandas reads as neither a number, a date nor a missing value. *)
Inductive cell :=
  | CNum (z : Z)
  | CStr (s : string)
  | CTime (t : Z)
  | CPeriod (ordinal : Z) (f : freq)
  | CNaT
  | CTimeText (t : Z)
  | CPeriodText (ordinal : Z) (f : freq).

Definition cell_of_stamp (s : stamp) : cell :=
  match s with
  | Timestamp t => CTime t
  | Period p f => CPeriod p f
  | NaT => CNaT
  end.

Inductive index_dtype :=
  | DatetimeIndex
  | PeriodIndex (f : freq).

(** A row is its index key and its cells, one per column.  A key is a
    timestamp, or a period ordinal under a [PeriodIndex]. *)
Definition row : Type := Z * list cell.

Record DataFrame := mkDataFrame {
  index_dtype_of : index_dtype;
  index_name : option string;
  columns : list label;
  rows : list row
}.

Definition index (df : DataFrame) : list Z := fst <$> rows df.

(** [df.index.max()]: NaT on an empty index. *)
Definition index_max (df : DataFrame) : stamp :=
  match index df with
  | [] => NaT
  | k :: ks =>
      let m := foldr Z.max k ks in
      match index_dtype_of df with
      | DatetimeIndex => Timestamp m
      | PeriodIndex f => Period m f
      end
  end.

(** [df.index = df.index.to_timestamp()] on a [PeriodIndex]. *)
Definition index_to_timestamp (freq : freq) (df : DataFrame) : DataFrame :=
  {| index_dtype_of := DatetimeIndex;
     index_name := index_name df;
     columns := columns df;
     rows := (λ r : row, (period_start r.1 freq, r.2)) <$> rows df |}.

(** [df.index.name = n].  The name is the index object's; a frame built
    on the same index object would show it too, and frames here share
    none. *)
Definition set_index_name (n : string) (df : DataFrame) : DataFrame :=
  {| index_dtype_of := index_dtype_of df;
     index_name := Some n;
     columns := columns df;
     rows := rows df |}.

(** [df.columns = df.columns.astype(str)]. *)
Definition columns_astype_str (df : DataFrame) : DataFrame :=
  {| index_dtype_of := index_dtype_of df;
     index_name := index_name df;
     columns := LStr ∘ str <$> columns df;
     rows := rows df |}.

(** [df[l] = v] for a scalar [v]: every column labelled [l] is filled with
    [v]; when there is none, a new last column is added. *)
Definition setitem_scalar (l : label) (v : cell) (df : DataFrame) : DataFrame :=
  if bool_decide (l ∈ columns df) then
    {| index_dtype_of := index_dtype_of df;
       index_name := index_name df;
       columns := columns df;
       rows := (λ r : row,
                 (r.1, zip_with (λ c x, if bool_decide (c = l) then v else x)
                                (columns df) r.2)) <$> rows df |}
  else
    {| index_dtype_of := index_dtype_of df;
       index_name := index_name df;
       columns := columns df ++ [l];
       rows := (λ r : row, (r.1, r.2 ++ [v])) <$> rows df |}.

(** [df[l]] for reading: the position of the column, [KeyError] without it. *)
Definition column_position (l : label) (cols : list label) : outcome nat :=
  match list_find (λ c, c = l) cols with
  | Some (i, _) => Return i
  | None => Raise KeyError
  end.

Definition cell_at (pos : nat) (r : row) : cell := default CNaT (r.2 !! pos).

(** Datetime comparisons; one with NaT is false. *)
Definition cell_time (c : cell) : option Z :=
  match c with
  | CTime t => Some t
  | _ => None
  end.

Definition stamp_time (s : stamp) : option Z :=
  match s with
  | Timestamp t => Some t
  | _ => None
  end.

Definition time_lt (a b : option Z) : bool :=
  match a, b with
  | Some x, Some y => bool_decide (x < y)%Z
  | _, _ => false
  end.

Definition time_gt (a b : option Z) : bool := time_lt b a.

(** [df[mask]]: the rows where the mask is true. *)
Fixpoint getitem_mask (rs : list row) (mask : list bool) : list row :=
  match rs, mask with
  | r :: rs', true :: ms => r :: getitem_mask rs' ms
  | _ :: rs', false :: ms => getitem_mask rs' ms
  | _, _ => []
  end.

Definition nan_row (width : nat) : list cell := replicate width CNaT.

(** [value.reindex(keys)]: nothing to do when the index is [keys] already;
    an index with duplicate labels cannot be reindexed; a key the frame
    lacks gives a row of NaN. *)
Definition reindex (value : DataFrame) (keys : list Z) : outcome (list row) :=
  if bool_decide (index value = keys) then Return (rows value)
  else if bool_decide (NoDup (index value)) then
    Return ((λ k, match list_find (λ r : row, r.1 = k) (rows value) with
                  | Some (_, r) => r
                  | None => (k, nan_row (length (columns value)))
                  end) <$> keys)
  else Raise ValueError.

(** [df.iloc[positions of mask] = repl]: the cells of the selected rows are
    replaced, position by position; the index keys stay. *)
Fixpoint iloc_assign (rs : list row) (mask : list bool) (repl : list row) : list row :=
  match rs, mask with
  | r :: rs', true :: ms =>
      match repl with
      | v :: vs => (r.1, v.2) :: iloc_assign rs' ms vs
      | [] => r :: iloc_assign rs' ms []
      end
  | r :: rs', false :: ms => r :: iloc_assign rs' ms repl
  | _, _ => rs
  end.

(** [df[mask] = value] for a boolean row mask and a frame [value]
    ([DataFrame._setitem_array]): [value] is reindexed to the keys of the
    selected rows and assigned by position, column by column, whatever the
    labels; with no row selected nothing is assigned; rows of another
    width do not fit. *)
Definition setitem_mask (df : DataFrame) (mask : list bool) (value : DataFrame)
  : outcome DataFrame :=
  repl ← reindex value (fst <$> getitem_mask (rows df) mask);
  if bool_decide (getitem_mask (rows df) mask = []) then Return df
  else if bool_decide (length (columns value) = length (columns df)) then
    Return {| index_dtype_of := index_dtype_of df;
              index_name := index_name df;
              columns := columns df;
              rows := iloc_assign (rows df) mask repl |}
  else Raise TypeError.

(** [df[~df.index.isin(keys)]]. *)
Definition drop_keys (keys : list Z) (df : DataFrame) : DataFrame :=
  {| index_dtype_of := index_dtype_of df;
     index_name := index_name df;
     columns := columns df;
     rows := filter (λ r : row, r.1 ∉ keys) (rows df) |}.

(** [pd.concat([a, b], axis=0)]: the rows of [a] then those of [b]; when the
    column labels differ the columns are the union, in order of appearance,
    and a cell a frame lacks is NaN. *)
Definition align_row (cols from : list label) (r : row) : row :=
  (r.1, (λ c, match list_find (λ c', c' = c) from with
               | Some (i, _) => cell_at i r
               | None => CNaT
               end) <$> cols).

Definition concat (a b : DataFrame) : DataFrame :=
  let name := if bool_decide (index_name a = index_name b) then index_name a else None in
  if bool_decide (columns a = columns b) then
    {| index_dtype_of := index_dtype_of a;
       index_name := name;
       columns := columns a;
       rows := rows a ++ rows b |}
  else
    let cols := columns a ++ remove_dups (filter (λ c, c ∉ columns a) (columns b)) in
    {| index_dtype_of := index_dtype_of a;
       index_name := name;
       columns := cols;
       rows := (align_row cols (columns a) <$> rows a)
               ++ (align_row cols (columns b) <$> rows b) |}.

(** [df.sort_index()]: ascending in the index key. *)
Definition key_le (r1 r2 : row) : Prop := (r1.1 ≤ r2.1)%Z.

#[global] Instance key_le_dec : RelDecision key_le.
Proof. intros r1 r2. unfold key_le. apply _. Defined.

Definition sort_index (df : DataFrame) : DataFrame :=
  {| index_dtype_of := index_dtype_of df;
     index_name := index_name df;
     columns := columns df;
     rows := merge_sort key_le (rows df) |}.

(** A CSV file, and equally the frame [pd.read_csv] makes of it before any
    column is chosen as the index: the first column holds the index keys the
    file was written with, a key standing for the text of its timestamp. *)
Record CsvTable := mkCsvTable {
  csv_index_label : string;
  csv_columns : list string;
  csv_rows : list row
}.

(** [df.to_csv(path)]: the index goes first, under its name (an empty
    header when it has none); the key of a period stands for the text of
    its start. *)
Definition to_csv (df : DataFrame) : CsvTable :=
  {| csv_index_label := default "" (index_name df);
     csv_columns := str <$> columns df;
     csv_rows := match index_dtype_of df with
                 | DatetimeIndex => rows df
                 | PeriodIndex f => (λ r : row, (period_start r.1 f, r.2)) <$> rows df
                 end |}.

(** The header [pd.read_csv] makes of the first line: an empty name at
    position [i] is read as ["Unnamed: i"], and a name that was met [k]
    times before gets the suffix [".k"]. *)
Definition unnamed (i : nat) (name : string) : string :=
  if bool_decide (name = "") then "Unnamed: " +:+ pretty i else name.

Fixpoint dedup_names (seen names : list string) : list string :=
  match names with
  | [] => []
  | name :: names' =>
      let k := length (filter (λ x, x = name) seen) in
      (if bool_decide (k = 0%nat) then name else name +:+ "." +:+ pretty k)
        :: dedup_names (name :: seen) names'
  end.

Definition read_header (names : list string) : list string :=
  dedup_names [] (imap unnamed names).

(** What [pd.read_csv] makes of a written cell: a number is a number
    again, a timestamp or a period comes back as the text it was written
    as. *)
Definition read_cell (c : cell) : cell :=
  match c with
  | CTime t => CTimeText t
  | CPeriod p f => CPeriodText p f
  | _ => c
  end.

(** [pd.read_csv]. *)
Definition read_csv (t : CsvTable) : CsvTable :=
  let header := read_header (csv_index_label t :: csv_columns t) in
  {| csv_index_label := default "" (head header);
     csv_columns := tail header;
     csv_rows := (λ r : row, (r.1, read_cell <$> r.2)) <$> csv_rows t |}.

(** [pd.to_datetime] on one value: text that is no date does not
    convert, nor does a period. *)
Definition to_datetime (c : cell) : outcome cell :=
  match c with
  | CTime t => Return (CTime t)
  | CNum n => Return (CTime n)
  | CTimeText t => Return (CTime t)
  | CPeriodText p f => Return (CTime (period_start p f))
  | CNaT => Return CNaT
  | CStr _ => Raise ValueError
  | CPeriod _ _ => Raise TypeError
  end.

(** [df[l] = pd.to_datetime(df[l])] on the cells of one row. *)
Fixpoint to_datetime_columns (l : string) (cols : list string) (cs : list cell)
  : outcome (list cell) :=
  match cols, cs with
  | c :: cols', x :: cs' =>
      x' ← (if bool_decide (c = l) then to_datetime x else Return x);
      r ← to_datetime_columns l cols' cs';
      Return (x' :: r)
  | _, _ => Return cs
  end.

Fixpoint to_datetime_rows (l : string) (cols : list string) (rs : list row)
  : outcome (list row) :=
  match rs with
  | [] => Return []
  | r :: rs' =>
      cs ← to_datetime_columns l cols r.2;
      rest ← to_datetime_rows l cols rs';
      Return ((r.1, cs) :: rest)
  end.

End Pandas.
Export Pandas.

(** ** The world the client runs in *)

Module Env.

(** A model object is opaque to the client: the bytes its serializer writes. *)
Definition PickableObject : Type := string.

(** What a file holds, locally or in the remote repository. *)
Inductive content :=
  | FJson (j : json)
  | FCsv (t : CsvTable)
  | FBlob (b : PickableObject).

(** The local file system below the working directory, the files of the
    remote repository by path, the frames the caller shares with the client
    by reference, and the failures the transport will meet: each call of the
    remote store takes the next entry of [faults] and raises it when it is
    an error. *)
Record World := mkWorld {
  cwd : string;
  local_files : gmap string content;
  local_dirs : gset string;
  remote : gmap string content;
  frames : gmap nat DataFrame;
  faults : list (option error)
}.

Definition set_local_files (f : gmap string content) (w : World) : World :=
  mkWorld (cwd w) f (local_dirs w) (remote w) (frames w) (faults w).
Definition set_local_dirs (d : gset string) (w : World) : World :=
  mkWorld (cwd w) (local_files w) d (remote w) (frames w) (faults w).
Definition set_remote (r : gmap string content) (w : World) : World :=
  mkWorld (cwd w) (local_files w) (local_dirs w) r (frames w) (faults w).
Definition set_frames (h : gmap nat DataFrame) (w : World) : World :=
  mkWorld (cwd w) (local_files w) (local_dirs w) (remote w) h (faults w).
Definition set_faults (fs : list (option error)) (w : World) : World :=
  mkWorld (cwd w) (local_files w) (local_dirs w) (remote w) (frames w) fs.

(** A method call: it runs from a world to an outcome and the world it
    leaves, also when it raises. *)
Definition M (A : Type) : Type := World → outcome A * World.

#[global] Instance M_ret : MRet M := λ A a w, (Return a, w).
#[global] Instance M_bind : MBind M := λ A B f m w,
  match m w with
  | (Return a, w') => f a w'
  | (Raise e, w') => (Raise e, w')
  end.

Definition raise {A} (e : error) : M A := λ w, (Raise e, w).

Definition lift {A} (o : outcome A) : M A := λ w, (o, w).

(** [try: x = body / except: return handler / (the rest, with x)]: a bare
    [except] takes whatever [body] raises. *)
Definition try_except {A B} (body : M A) (handler : M B) (rest : A → M B) : M B := λ w,
  match body w with
  | (Return a, w') => rest a w'
  | (Raise _, w') => handler w'
  end.

(** *** Local file system *)

Definition os_getcwd : M string := λ w, (Return (cwd w), w).

(** The working directory is a directory, as is every path of
    [local_dirs]. *)
Definition is_dir (p : string) (w : World) : bool :=
  bool_decide (p = cwd w) || bool_decide (p ∈ local_dirs w).

Definition exists_locally (p : string) (w : World) : bool :=
  is_dir p w || bool_decide (is_Some (local_files w !! p)).

Definition os_path_exists (p : string) : M bool := λ w, (Return (exists_locally p w), w).

(** [p] is an entry of an existing directory, or of a path that is a file. *)
Definition parent_is_dir (p : string) (w : World) : bool :=
  bool_decide (set_Exists (λ d, entry_of d p = true) ({[cwd w]} ∪ local_dirs w)).

Definition parent_is_file (p : string) (w : World) : bool :=
  bool_decide (set_Exists (λ f, entry_of f p = true) (dom (local_files w))).

(** What stands in the way of a new entry at [p]: its parent is a file, or
    is missing. *)
Definition parent_error (p : string) (w : World) : option error :=
  if parent_is_dir p w then None
  else if parent_is_file p w then Some NotADirectoryError
  else Some FileNotFoundError.

(** [os.makedirs(p)] makes the directory and the directories above it
    that are missing; it raises when [p] exists, or when a file is in the
    way. *)
Definition os_makedirs (p : string) : M unit := λ w,
  if exists_locally p w then (Raise FileExistsError, w)
  else if bool_decide (Exists (λ a, is_Some (local_files w !! a)) (ancestors p))
  then (Raise NotADirectoryError, w)
  else (Return (),
        set_local_dirs ({[p]} ∪ list_to_set (ancestors p) ∪ local_dirs w) w).

(** [os.mkdir(p)] makes the directory and returns [None]. *)
Definition os_mkdir (p : string) : M (option string) := λ w,
  if exists_locally p w then (Raise FileExistsError, w)
  else match parent_error p w with
       | Some e => (Raise e, w)
       | None => (Return None, set_local_dirs ({[p]} ∪ local_dirs w) w)
       end.

(** [open(p, 'w')] and what is written to it: a directory cannot be opened
    for writing, and the file is made in a directory that exists. *)
Definition write_error (p : string) (w : World) : option error :=
  if is_dir p w then Some IsADirectoryError else parent_error p w.

Definition write_file (p : string) (c : content) : M unit := λ w,
  match write_error p w with
  | Some e => (Raise e, w)
  | None => (Return (), set_local_files (<[p := c]> (local_files w)) w)
  end.

Definition os_remove (p : string) : M unit := λ w,
  match local_files w !! p with
  | Some _ => (Return (), set_local_files (delete p (local_files w)) w)
  | None => (Raise FileNotFoundError, w)
  end.

Definition outside (d : string) (p : string) : Prop := relative_to d p = None.

(** [shutil.rmtree(d)]. *)
Definition shutil_rmtree (d : string) : M unit := λ w,
  if bool_decide (d ∈ local_dirs w) then
    (Return (),
     set_local_dirs (filter (outside d) (local_dirs w ∖ {[d]}))
       (set_local_files (filter (λ f, outside d f.1) (local_files w)) w))
  else (Raise FileNotFoundError, w).

(** A path held in a variable that may be [None]. *)
Definition os_path_join_py (a : option string) (b : string) : M string :=
  match a with
  | Some a => mret (os_path_join a b)
  | None => raise TypeError
  end.

Definition shutil_rmtree_py (d : option string) : M unit :=
  match d with
  | Some d => shutil_rmtree d
  | None => raise TypeError
  end.

(** *** Serializer: [PickableObject.save] and [PickableObject.restore] *)

Definition save (pickable_model : PickableObject) (fpath : string) : M unit :=
  write_file fpath (FBlob pickable_model).

Definition restore (fpath : string) : M PickableObject := λ w,
  match local_files w !! fpath with
  | Some (FBlob b) => (Return b, w)
  | Some _ => (Raise ParseError, w)
  | None => (Raise FileNotFoundError, w)
  end.

(** *** Remote store: the functions of [pyutils.git] the client calls,
    after their interface: a path that is absent is [NotFound], and any
    call can meet a transport failure or a timeout.  The client reads and
    pushes one repository, so a file is identified by its path. *)

Definition transfer : M unit := λ w,
  match faults w with
  | Some e :: fs => (Raise e, set_faults fs w)
  | None :: fs => (Return (), set_faults fs w)
  | [] => (Return (), w)
  end.

Definition fetch (path : string) : M content := λ w,
  match remote w !! path with
  | Some c => (Return c, w)
  | None => (Raise NotFound, w)
  end.

Definition read_remote_file (user_name repo_name path : string) : M content :=
  transfer;; fetch path.

Definition web_remote_fpath (user_name repo_name path : string) : string := path.

(** [json.loads] of what was read. *)
Definition json_loads (c : content) : outcome json :=
  match c with
  | FJson j => Return j
  | _ => Raise ParseError
  end.

(** [pd.read_csv] of a remote location. *)
Definition parse_csv (c : content) : outcome CsvTable :=
  match c with
  | FCsv t => Return (read_csv t)
  | _ => Raise ParseError
  end.

Definition pd_read_csv (location : string) : M CsvTable :=
  transfer;;
  c ← fetch location;
  lift (parse_csv c).

Definition upload (files : list (string * content)) (r : gmap string content)
  : gmap string content :=
  foldr (λ f, <[f.1 := f.2]>) r files.

(** Each file goes into the remote directory under its own name. *)
Definition store_files (from_local_fpaths : list string) (to : string) : M unit := λ w,
  match mapM (λ p, c ← local_files w !! p; Some (to +:+ "/" +:+ basename p, c))
             from_local_fpaths with
  | Some files => (Return (), set_remote (upload files (remote w)) w)
  | None => (Raise FileNotFoundError, w)
  end.

Definition push_files (access_token repo_name : string)
    (from_local_fpaths : list string) (to_remote_dpaths : string) : M unit :=
  transfer;; store_files from_local_fpaths to_remote_dpaths.

Definition files_below (d : string) (to : string) (fs : gmap string content)
  : list (string * content) :=
  omap (λ f, r ← relative_to d f.1; Some (to +:+ "/" +:+ r, f.2)) (map_to_list fs).

(** Every file below the local directory goes to the same relative path
    below the remote one. *)
Definition store_directory (from_local_dpath to_remote_dpath : string) : M unit := λ w,
  if bool_decide (from_local_dpath ∈ local_dirs w) then
    (Return (),
     set_remote (upload (files_below from_local_dpath to_remote_dpath (local_files w))
                        (remote w)) w)
  else (Raise FileNotFoundError, w).

Definition push_directory (access_token repo_name : string)
    (from_local_dpath to_remote_dpath : string) (timeout : Z) : M unit :=
  transfer;; store_directory from_local_dpath to_remote_dpath.

(** *** Frames shared by reference *)

Definition deref (r : nat) : M DataFrame := λ w,
  match frames w !! r with
  | Some df => (Return df, w)
  | None => (Raise NameError, w)
  end.

Definition assign (r : nat) (df : DataFrame) : M unit := λ w,
  (Return (), set_frames (<[r := df]> (frames w)) w).

End Env.
Export Env.

(** ** The client *)

Module MLGitClient.

Record MLGitClient := mkClient {
  user_name : string;
  repo_name : string;
  registry_dpath : option string
}.

Section Methods.

(** [pull_directory] of the remote store is only ever handed the result
    of [os.mkdir] as its destination; what it does with it is left to the
    collaborator. *)
Variable pull_directory : string → string → string → option string → M unit.

Variable self : MLGitClient.

Definition model_remote_path (model_name : string)
    (model_version artifact_name : option string) : string :=
  join "/" (omap id [registry_dpath self; Some model_name; model_version; artifact_name]).

Definition get_json_artifact (artifact_name model_name : string)
    (model_version : option string) : M json :=
  let remote_artifact_fpath :=
    model_remote_path model_name model_version (Some (artifact_name +:+ ".json")) in
  c ← read_remote_file (user_name self) (repo_name self) remote_artifact_fpath;
  lift (json_loads c).

Definition get_version_list (model_name : string) : M json :=
  get_json_artifact "versions" model_name None.

(** The parsing options are handed to [pd.read_csv] as they are; the
    client itself passes none. *)
Definition get_pandas_artifact (artifact_name model_name : string)
    (model_version : option string) : M CsvTable :=
  let remote_artifact_fpath :=
    model_remote_path model_name model_version (Some (artifact_name +:+ ".csv")) in
  pd_read_csv (web_remote_fpath (user_name self) (repo_name self) remote_artifact_fpath).

(** The first column becomes the index; it and the [version_timestamp]
    column are read as datetimes. *)
Definition get_model_backtest (model_name : string) : M DataFrame :=
  model_backtest ← get_pandas_artifact "backtest" model_name None;
  let index_name := csv_index_label model_backtest in
  (if bool_decide ("version_timestamp" ∈ index_name :: csv_columns model_backtest)
     return M unit
   then mret () else raise KeyError);;
  rs ← lift (to_datetime_rows "version_timestamp" (csv_columns model_backtest)
                              (csv_rows model_backtest));
  mret {| index_dtype_of := DatetimeIndex;
          index_name := Some index_name;
          columns := LStr <$> csv_columns model_backtest;
          rows := rs |}.

Definition get_model_version (model_name model_version : string) : M PickableObject :=
  d ← os_getcwd;
  model_version_local_dpath ← os_mkdir (os_path_join d "temp_model_version");
  pull_directory (user_name self) (repo_name self)
    (model_remote_path model_name (Some model_version) None)
    model_version_local_dpath;;
  fpath ← os_path_join_py model_version_local_dpath "model";
  pickable_model ← restore fpath;
  shutil_rmtree_py model_version_local_dpath;;
  mret pickable_model.

(** *** Artifact logging *)

Definition log_artifact (access_token artifact_fpath model_name : string)
    (model_version : option string) : M unit :=
  push_files access_token (repo_name self) [artifact_fpath]
    (model_remote_path model_name model_version None).

Definition log_json_artifact (access_token : string) (json_artifact : json)
    (artifact_name model_name : string) (model_version : option string) : M unit :=
  d ← os_getcwd;
  let artifact_temp_fpath := os_path_join d (artifact_name +:+ ".json") in
  write_file artifact_temp_fpath (FJson json_artifact);;
  log_artifact access_token artifact_temp_fpath model_name model_version;;
  os_remove artifact_temp_fpath.

Definition register_model (access_token model_name : string) : M unit :=
  log_json_artifact access_token (JArr []) "versions" model_name None.

Definition log_pandas_artifact (access_token : string) (pandas_artifact : DataFrame)
    (artifact_name model_name : string) (model_version : option string) : M unit :=
  d ← os_getcwd;
  let artifact_temp_fpath := os_path_join d (artifact_name +:+ ".csv") in
  write_file artifact_temp_fpath (FCsv (to_csv pandas_artifact));;
  log_artifact access_token artifact_temp_fpath model_name model_version;;
  os_remove artifact_temp_fpath.

(** *** The backtest merge *)

(** The rows of the prior series the new one overrides. *)
Definition override_mask (new_index : list Z) (version_timestamp : stamp)
    (pos : nat) (r : row) : bool :=
  bool_decide (r.1 ∈ new_index)
  && time_gt (cell_time (cell_at pos r)) (stamp_time version_timestamp)
  && time_lt (Some r.1) (cell_time (cell_at pos r)).

(** The override and the concatenation at the end of [log_model_backtest],
    as the pandas expressions they are: the table that is logged. *)
Definition merge_backtest (prior_model_backtest model_backtest : DataFrame)
    (version_timestamp : stamp) : outcome DataFrame :=
  pos ← column_position (LStr "version_timestamp") (columns prior_model_backtest);
  prior_model_backtest ←
    setitem_mask prior_model_backtest
      (override_mask (index model_backtest) version_timestamp pos
         <$> rows prior_model_backtest)
      model_backtest;
  Return (sort_index
            (concat prior_model_backtest
                    (drop_keys (index prior_model_backtest) model_backtest))).

(** [model_backtest] is the caller's frame, passed by reference. *)
Definition log_model_backtest (access_token : string) (model_backtest : nat)
    (model_name : string) (version_timestamp : option stamp) : M unit :=
  df ← deref model_backtest;
  let version_timestamp := default (index_max df) version_timestamp in
  (match index_dtype_of df return M unit with
   | PeriodIndex freq => assign model_backtest (index_to_timestamp freq df)
   | DatetimeIndex => mret ()
   end);;
  let version_timestamp :=
    match version_timestamp with
    | Period p freq => Timestamp (period_start p freq)
    | _ => version_timestamp
    end in
  df ← deref model_backtest;
  (match index_name df return M unit with
   | None => assign model_backtest (set_index_name "date" df)
   | Some _ => mret ()
   end);;
  df ← deref model_backtest;
  assign model_backtest (columns_astype_str df);;
  df ← deref model_backtest;
  assign model_backtest
    (setitem_scalar (LStr "version_timestamp") (cell_of_stamp version_timestamp) df);;
  try_except (get_model_backtest model_name)
    (df ← deref model_backtest;
     log_pandas_artifact access_token df "backtest" model_name None)
    (λ prior_model_backtest,
       df ← deref model_backtest;
       new_model_backtest ← lift (merge_backtest prior_model_backtest df version_timestamp);
       log_pandas_artifact access_token new_model_backtest "backtest" model_name None).

(** *** Version logging *)

Definition make_model_version_local_paths (model_version : string) : M (string * string) :=
  d ← os_getcwd;
  let model_version_local_dpath := os_path_join d model_version in
  e ← os_path_exists model_version_local_dpath;
  (if negb e return M unit then os_makedirs model_version_local_dpath else mret ());;
  mret (model_version_local_dpath, os_path_join model_version_local_dpath "model").

Definition log_model_version_from_local (access_token model_name model_version
    model_version_local_dpath : string) : M unit :=
  push_directory access_token (repo_name self) model_version_local_dpath
    (model_remote_path model_name (Some model_version) None) 120;;
  model_versions ← get_version_list model_name;
  model_versions ← lift (append model_versions (JStr model_version));
  log_json_artifact access_token model_versions "versions" model_name None.

Definition log_model_version (access_token : string) (pickable_model : PickableObject)
    (model_name model_version : string) : M unit :=
  paths ← make_model_version_local_paths model_version;
  let model_version_local_dpath := paths.1 in
  let model_version_local_fpath := paths.2 in
  save pickable_model model_version_local_fpath;;
  log_model_version_from_local access_token model_name model_version
    model_version_local_dpath;;
  shutil_rmtree model_version_local_dpath.

End Methods.

End MLGitClient.
Export MLGitClient.

(** * Vocabulary of the properties *)

(** The non-null elements of a list of optional segments, as a filter. *)
Definition non_null (segments : list (option string)) : list string :=
  default "" <$> filter is_Some segments.

(** The next entry of the fault schedule and what is left of it. *)
Definition next_fault (fs : list (option error)) : option error * list (option error) :=
  match fs with
  | [] => (None, [])
  | f :: fs' => (f, fs')
  end.

(** The fault the [n]-th next call of the remote store meets. *)
Definition fault_at (n : nat) (fs : list (option error)) : option error :=
  (next_fault (Nat.iter n (λ l, (next_fault l).2) fs)).1.

(** The failure a remote read of [path] meets, if any: of the transport
    (a timeout included), a file that is missing, or one that does not
    parse. *)
Definition read_failure {A} (parse : content → outcome A) (path : string) (w : World)
  : option error :=
  match fault_at 0 (faults w) with
  | Some e => Some e
  | None =>
      match remote w !! path with
      | None => Some NotFound
      | Some c => match parse c with Raise e => Some e | Return _ => None end
      end
  end.

(** The failure staging a file at [p] and pushing it meets, if any: of
    the local file system when the file cannot be written, else of the
    transport. *)
Definition log_failure (p : string) (w : World) : option error :=
  match write_error p w with
  | Some e => Some e
  | None => fault_at 0 (faults w)
  end.



(** The world after [c] was staged at [p]. *)
Definition staged (p : string) (c : content) (w : World) : World :=
  set_local_files (<[p := c]> (local_files w)) w.

(** The world after the staged file was pushed into the remote directory
    [to] and removed. *)
Definition pushed (p : string) (c : content) (to : string) (w : World) : World :=
  set_local_files (delete p (local_files w))
    (set_remote (<[to +:+ "/" +:+ basename p := c]> (remote w))
       (set_faults (next_fault (faults w)).2 w)).

(** What [get_model_backtest] makes of the file it has read. *)
Definition read_backtest (c : content) : outcome DataFrame :=
  t ← parse_csv c;
  (if bool_decide ("version_timestamp" ∈ csv_index_label t :: csv_columns t)
   then Return () else Raise KeyError);;
  rs ← to_datetime_rows "version_timestamp" (csv_columns t) (csv_rows t);
  Return {| index_dtype_of := DatetimeIndex;
            index_name := Some (csv_index_label t);
            columns := LStr <$> csv_columns t;
            rows := rs |}.

(** The version timestamp and the caller's frame after the
    normalization at the head of [log_model_backtest]. *)
Definition normalized_timestamp (df : DataFrame) (version_timestamp : option stamp)
  : stamp :=
  let version_timestamp := default (index_max df) version_timestamp in
  match version_timestamp with
  | Period p freq => Timestamp (period_start p freq)
  | _ => version_timestamp
  end.

Definition with_timestamp_index (df : DataFrame) : DataFrame :=
  match index_dtype_of df with
  | PeriodIndex freq => index_to_timestamp freq df
  | DatetimeIndex => df
  end.

Definition with_index_name (df : DataFrame) : DataFrame :=
  match index_name df with
  | None => set_index_name "date" df
  | Some _ => df
  end.

Definition normalized_frame (df : DataFrame) (version_timestamp : option stamp)
  : DataFrame :=
  setitem_scalar (LStr "version_timestamp")
    (cell_of_stamp (normalized_timestamp df version_timestamp))
    (columns_astype_str (with_index_name (with_timestamp_index df))).

(** The version ids a stored version list names. *)
Definition version_ids (j : json) : list string :=
  match j with
  | JArr l => omap (λ x, match x with JStr v => Some v | _ => None end) l
  | _ => []
  end.

(** The condition under which a prior row with key [k] and recorded
    version timestamp [old] is overridden: the key is in the new index, the
    recorded timestamp is later than the new one, and the key is earlier
    than the recorded timestamp. *)
Definition override_condition (new_index : list Z) (version_timestamp : stamp)
    (k : Z) (old : cell) : Prop :=
  k ∈ new_index
  ∧ ∃ t_old t_new, old = CTime t_old ∧ version_timestamp = Timestamp t_new
                   ∧ (t_new < t_old)%Z ∧ (k < t_old)%Z.

(** A frame is rectangular: every row has a cell for every column. *)
Definition rectangular (df : DataFrame) : Prop :=
  Forall (λ x : row, length x.2 = length (columns df)) (rows df).

(** A string without the character [c]. *)
Fixpoint lacks (c : ascii) (s : string) : bool :=
  match s with
  | EmptyString => true
  | String c' s' => negb (bool_decide (c' = c)) && lacks c s'
  end.






Section Vocabulary.

Variable self : MLGitClient.

Definition stage_push_remove (access_token : string) (p : string) (c : content)
  (model_name : string) (model_version : option string) : M unit :=
write_file p c;;
log_artifact self access_token p model_name model_version;;
os_remove p.

Definition backtest_path (model_name : string) : string :=
model_remote_path self model_name None (Some "backtest.csv").

Definition versions_path (model_name : string) : string :=
model_remote_path self model_name None (Some "versions.json").

Definition model_artifact_path (model_name model_version : string) : string :=
model_remote_path self model_name (Some model_version) (Some "model").

Definition listed_versions (model_name : string) (r : gmap string content)
: list string :=
match r !! versions_path model_name with
| Some (FJson j) => version_ids j
| _ => []
end.

(** The content of a version is in the remote store. *)
Definition pushed_version (model_name : string) (r : gmap string content)
  (model_version : string) : bool :=
bool_decide (is_Some (r !! model_artifact_path model_name model_version)).

(** No listed version lacks its content. *)
Definition listed_versions_are_pushed (model_name : string) (r : gmap string content)
: bool :=
forallb (pushed_version model_name r) (listed_versions model_name r).

End Vocabulary.

(** ** Worlds the properties are run on *)

Definition acct : MLGitClient := mkClient "acct" "repo" (Some "registry").

(** A push that times out. *)
Definition timeout_world : World :=
  mkWorld "/home/user" ∅ ∅ ∅ ∅ [Some Timeout].

(** A registry holding version [v1] of model [m]. *)
Definition registry_with_v1 : World :=
  mkWorld "/home/user" ∅ ∅
    (<["registry/m/v1/model" := FBlob "weights"]>
       (<["registry/m/versions.json" := FJson (JArr [JStr "v1"])]> ∅))
    ∅ [].

(** The daily frequency: the ordinal of a period is its number of days
    since the epoch, and a day has 86400 * 10^9 nanoseconds. *)
Definition daily : freq := mkFreq (λ ordinal, ordinal * 86400000000000).

(** A caller's frame with a daily period index (1970-02-20 and
    1970-02-21), no index name and an integer column label. *)
Definition period_frame : DataFrame :=
  mkDataFrame (PeriodIndex daily) None [LInt 0] [(50, [CNum 7]); (51, [CNum 8])].




(** A stored backtest, a caller's frame, and a prior read that times out. *)
Definition stored_backtest : CsvTable :=
  mkCsvTable "date" ["p"; "version_timestamp"]
    [(1, [CNum 10; CTime 5]); (2, [CNum 20; CTime 5])].

Definition new_backtest : DataFrame :=
  mkDataFrame DatetimeIndex None [LStr "p"] [(1, [CNum 11]); (3, [CNum 31])].

Definition timeout_on_prior_read : World :=
  mkWorld "/home/user" ∅ ∅
    (<["registry/m/backtest.csv" := FCsv stored_backtest]> ∅)
    {[ 0%nat := new_backtest ]}
    [Some Timeout].

(** A registered model, and a transport that fails right after the
    directory push. *)
Definition failure_after_push : World :=
  mkWorld "/home/user" ∅ ∅
    (<["registry/m/versions.json" := FJson (JArr [])]> ∅) ∅ [None; Some Timeout].

(** A stored series whose rows were produced at version timestamp 5, and
    an older version (timestamp 3) logging rows for the keys 1 and 3. *)
Definition merge_world : World :=
  mkWorld "/home/user" ∅ ∅
    (<["registry/m/backtest.csv" := FCsv stored_backtest]> ∅)
    {[ 0%nat := new_backtest ]}
    [].

Definition stored_frame : DataFrame :=
  mkDataFrame DatetimeIndex (Some "date") [LStr "p"; LStr "version_timestamp"]
    [(1, [CNum 10; CTime 5]); (2, [CNum 20; CTime 5])].

Definition merge_world_normalized : World :=
  set_frames (<[0%nat := normalized_frame new_backtest (Some (Timestamp 3))]>
                (frames merge_world)) merge_world.

(** A stored series with the keys 1, 2, 3 and a new one with the keys 4, 5. *)
Definition stored_123 : CsvTable :=
  mkCsvTable "date" ["p"; "version_timestamp"]
    [(1, [CNum 10; CTime 3]); (2, [CNum 20; CTime 3]); (3, [CNum 30; CTime 3])].


Definition new_45 : DataFrame :=
  mkDataFrame DatetimeIndex None [LStr "p"] [(5, [CNum 50]); (4, [CNum 40])].

Definition disjoint_world : World :=
  mkWorld "/home/user" ∅ ∅
    (<["registry/m/backtest.csv" := FCsv stored_123]> ∅)
    {[ 0%nat := new_45 ]}
    [].


(** A new series that repeats the key 1, which the stored series has, and
    one that repeats the key 4, which the stored series lacks. *)
Definition repeated_key : DataFrame :=
  mkDataFrame DatetimeIndex None [LStr "p"] [(1, [CNum 11]); (1, [CNum 12])].

Definition repeated_key_world : World :=
  mkWorld "/home/user" ∅ ∅
    (<["registry/m/backtest.csv" := FCsv stored_backtest]> ∅)
    {[ 0%nat := repeated_key ]}
    [].



(** A backtest stored without a [version_timestamp] column. *)
Definition legacy_backtest : CsvTable :=
  mkCsvTable "date" ["p"] [(1, [CNum 10]); (2, [CNum 20])].

Definition legacy_world : World :=
  mkWorld "/home/user" ∅ ∅
    (<["registry/m/backtest.csv" := FCsv legacy_backtest]> ∅)
    {[ 0%nat := new_backtest ]}
    [].

(** A [pull_directory] that fetches nothing. *)
Definition pull_nothing : string → string → string → option string → M unit :=
  λ _ _ _ _, mret ().

(** The world [merge_world] after the caller's frame was normalized for a
    log at version timestamp [t]. *)
Definition merge_world_at (t : Z) : World :=
  set_frames (<[0%nat := normalized_frame new_backtest (Some (Timestamp t))]>
                (frames merge_world)) merge_world.

(** * Properties *)

#[local] Arguments String.append : simpl nomatch.

(** ** Strings and paths *)

Section Paths.

Implicit Types a b d s x y : string.

Lemma string_app_assoc x y s : (x +:+ y) +:+ s = x +:+ y +:+ s.
Proof. induction x as [|c x IH]; simpl; [done | by rewrite IH]. Qed.

Lemma no_slash_split s x y : no_slash s = true → s ≠ x +:+ "/" +:+ y.
Proof.
  revert x. induction s as [|c s IH]; intros [|c' x] Hs; simpl in *; try done.
  - intros [= -> _]. by rewrite bool_decide_eq_true_2 in Hs.
  - apply andb_prop in Hs as [_ Hs]. intros [= _ Heq]. by eapply IH.
Qed.

Lemma basename_aux_no_slash acc s : no_slash s = true → basename_aux acc s = acc.
Proof.
  induction s as [|c s IH]; simpl; [done |].
  case_bool_decide; simpl; [done | auto].
Qed.

Lemma basename_aux_app acc x s :
  no_slash s = true → basename_aux acc (x +:+ "/" +:+ s) = s.
Proof.
  intros Hs. revert acc. induction x as [|c x IH]; intros acc; simpl.
  - by apply basename_aux_no_slash.
  - case_bool_decide; apply IH.
Qed.

Lemma ends_with_slash_split a : ends_with_slash a = true → ∃ x, a = x +:+ "/".
Proof.
  induction a as [|c a IH]; simpl; [done |].
  destruct a as [|c' a].
  - intros ->%bool_decide_eq_true. by exists "".
  - intros [x ->]%IH. by exists (String c x).
Qed.

Lemma starts_with_slash_no_slash s : no_slash s = true → starts_with_slash s = false.
Proof.
  destruct s as [|c s]; simpl; [done |].
  by case_bool_decide.
Qed.

(** The name of a file staged in a directory is the name it was given. *)
Lemma basename_os_path_join d s : no_slash s = true → basename (os_path_join d s) = s.
Proof.
  intros Hs. unfold os_path_join, basename.
  rewrite (starts_with_slash_no_slash _ Hs).
  case_bool_decide as Hd; simpl.
  - subst d. simpl. by apply basename_aux_no_slash.
  - destruct (ends_with_slash d) eqn:He.
    + destruct (ends_with_slash_split _ He) as [x ->].
      rewrite string_app_assoc. by apply basename_aux_app.
    + by apply basename_aux_app.
Qed.

Lemma strip_prefix_app d x : strip_prefix d (d +:+ x) = Some x.
Proof.
  induction d as [|c d IH]; simpl; [done |].
  by rewrite bool_decide_eq_true_2.
Qed.

(** A file written into a directory lies inside it, under its name. *)
Lemma relative_to_os_path_join d s :
  starts_with_slash s = false → relative_to d (os_path_join d s) = Some s.
Proof.
  intros Hs. unfold relative_to, os_path_join. rewrite Hs.
  case_bool_decide as Hd; simpl; [by subst d |].
  destruct (ends_with_slash d) eqn:He.
  - by rewrite strip_prefix_app.
  - by rewrite strip_prefix_app.
Qed.

Lemma string_app_id d x : d +:+ x = d → x = "".
Proof.
  induction d as [|c d IH]; simpl; [done |].
  intros [= H]. by apply IH.
Qed.

Lemma os_path_join_longer d s : s ≠ "" → starts_with_slash s = false → os_path_join d s ≠ d.
Proof.
  intros Hs Hslash. unfold os_path_join. rewrite Hslash.
  destruct (bool_decide (d = "") || ends_with_slash d).
  - by intros ?%string_app_id.
  - by intros ?%string_app_id.
Qed.

(** A name joined to a directory is an entry of it. *)
Lemma entry_of_os_path_join d s :
  no_slash s = true → s ≠ "" → entry_of d (os_path_join d s) = true.
Proof.
  intros Hs Hne. unfold entry_of.
  rewrite relative_to_os_path_join by by apply starts_with_slash_no_slash.
  rewrite Hs. simpl. by rewrite bool_decide_eq_false_2.
Qed.

End Paths.

(** ** The local file system *)

Section LocalFiles.

Implicit Types d p s : string.

Lemma parent_is_dir_cwd s w :
  no_slash s = true → s ≠ "" → parent_is_dir (os_path_join (cwd w) s) w = true.
Proof.
  intros Hs Hne. unfold parent_is_dir. apply bool_decide_eq_true_2.
  exists (cwd w). split; [set_solver | by apply entry_of_os_path_join].
Qed.


(** A file named [s] can be written in the working directory unless a
    directory has its path. *)
Lemma write_error_cwd s w :
  no_slash s = true → s ≠ "" →
  write_error (os_path_join (cwd w) s) w
  = if bool_decide (os_path_join (cwd w) s ∈ local_dirs w)
    then Some IsADirectoryError else None.
Proof.
  intros Hs Hne. unfold write_error, is_dir, parent_error.
  rewrite (bool_decide_eq_false_2 (_ = cwd w)).
  2: { apply os_path_join_longer; [done | by apply starts_with_slash_no_slash]. }
  simpl. case_bool_decide; [done |]. by rewrite parent_is_dir_cwd.
Qed.

Lemma write_file_run p c w :
  write_file p c w
  = match write_error p w with
    | Some e => (Raise e, w)
    | None => (Return (), staged p c w)
    end.
Proof. reflexivity. Qed.

End LocalFiles.

Ltac string_assoc := repeat (rewrite string_app_assoc; simpl).

(** ** Path addressing *)

Section Addressing.

Variable self : MLGitClient.

(** The remote path of an artifact is the path of its directory, a slash
    and its name. *)
Lemma model_remote_path_artifact model_name model_version artifact_name :
  model_remote_path self model_name model_version (Some artifact_name)
  = model_remote_path self model_name model_version None +:+ "/" +:+ artifact_name.
Proof.
  unfold model_remote_path, join.
  destruct (registry_dpath self) as [root|], model_version as [v|]; simpl;
    by string_assoc.
Qed.

Lemma model_remote_path_version model_name model_version :
  model_remote_path self model_name (Some model_version) None
  = model_remote_path self model_name None None +:+ "/" +:+ model_version.
Proof.
  unfold model_remote_path, join.
  destruct (registry_dpath self) as [root|]; simpl; by string_assoc.
Qed.

End Addressing.

(** C6: the remote path is the ['/']-join of the non-null elements of
    [registry root, model name, version, artifact name]; with the registry
    root set, the four combinations of an absent or present version and
    artifact name give [root/m], [root/m/v], [root/m/v/a] and [root/m/a]:
    an absent segment leaves no empty segment behind. *)
Theorem model_remote_path_joins_present_segments :
  ∀ (user repo root m v a : string) (registry : option string),
    (∀ version artifact,
        model_remote_path (mkClient user repo registry) m version artifact
        = join "/" (non_null [registry; Some m; version; artifact]))
    ∧ (let self := mkClient user repo (Some root) in
       model_remote_path self m None None = root +:+ "/" +:+ m
       ∧ model_remote_path self m (Some v) None = root +:+ "/" +:+ m +:+ "/" +:+ v
       ∧ model_remote_path self m (Some v) (Some a)
         = root +:+ "/" +:+ m +:+ "/" +:+ v +:+ "/" +:+ a
       ∧ model_remote_path self m None (Some a) = root +:+ "/" +:+ m +:+ "/" +:+ a).
Proof.
  intros user repo root m v a registry. split.
  - intros version artifact. unfold model_remote_path, non_null.
    by destruct registry, version, artifact.
  - by repeat split.
Qed.

Example model_remote_path_without_version :
  model_remote_path (mkClient "acct" "repo" (Some "registry")) "m" None (Some "a")
  = "registry/m/a".
Proof. reflexivity. Qed.

(** ** Running a method *)

Lemma bind_run {A B} (m : M A) (f : A → M B) (w : World) :
  (m ≫= f) w = match m w with
               | (Return a, w') => f a w'
               | (Raise e, w') => (Raise e, w')
               end.
Proof. reflexivity. Qed.

Lemma transfer_run w :
  transfer w = match (next_fault (faults w)).1 with
               | Some e => (Raise e, set_faults (next_fault (faults w)).2 w)
               | None => (Return (), set_faults (next_fault (faults w)).2 w)
               end.
Proof. unfold transfer. by destruct w as [? ? ? ? ? [|[e|] fs]]. Qed.

(** ** Staging an artifact: write, push, remove *)

Section Staging.

Variable self : MLGitClient.

Lemma stage_push_remove_run access_token p c model_name model_version w :
  stage_push_remove self access_token p c model_name model_version w
  = match write_error p w with
    | Some e => (Raise e, w)
    | None =>
        match (next_fault (faults w)).1 with
        | Some e => (Raise e, set_faults (next_fault (faults w)).2 (staged p c w))
        | None =>
            (Return (),
             pushed p c (model_remote_path self model_name model_version None) w)
        end
    end.
Proof.
  unfold stage_push_remove, log_artifact, push_files.
  rewrite !bind_run. unfold write_file at 1.
  destruct (write_error p w) as [e0|]; [done |].
  rewrite !bind_run, transfer_run. simpl.
  destruct (next_fault (faults w)).1 as [e|]; [done |].
  unfold store_files, os_remove. simpl.
  rewrite !lookup_insert_eq. simpl. rewrite lookup_insert_eq.
  unfold pushed, set_local_files, set_remote, set_faults. simpl.
  by rewrite delete_insert_eq.
Qed.

Lemma log_json_artifact_run access_token j artifact_name model_name model_version w :
  log_json_artifact self access_token j artifact_name model_name model_version w
  = stage_push_remove self access_token (os_path_join (cwd w) (artifact_name +:+ ".json"))
      (FJson j) model_name model_version w.
Proof. reflexivity. Qed.

Lemma log_pandas_artifact_run access_token df artifact_name model_name model_version w :
  log_pandas_artifact self access_token df artifact_name model_name model_version w
  = stage_push_remove self access_token (os_path_join (cwd w) (artifact_name +:+ ".csv"))
      (FCsv (to_csv df)) model_name model_version w.
Proof. reflexivity. Qed.

(** Staging a file named [s] in the working directory, where no
    directory has its path: the write goes through, and the push decides. *)
Lemma stage_push_remove_cwd access_token s c model_name model_version w :
  no_slash s = true → s ≠ "" →
  os_path_join (cwd w) s ∉ local_dirs w →
  stage_push_remove self access_token (os_path_join (cwd w) s) c model_name
    model_version w
  = match (next_fault (faults w)).1 with
    | Some e =>
        (Raise e,
         set_faults (next_fault (faults w)).2 (staged (os_path_join (cwd w) s) c w))
    | None =>
        (Return (),
         pushed (os_path_join (cwd w) s) c
           (model_remote_path self model_name model_version None) w)
    end.
Proof.
  intros Hs Hne Hd. rewrite stage_push_remove_run, write_error_cwd by done.
  by rewrite bool_decide_eq_false_2.
Qed.

Lemma stage_push_remove_at access_token p s c model_name model_version w :
  p = os_path_join (cwd w) s →
  no_slash s = true → s ≠ "" →
  p ∉ local_dirs w →
  stage_push_remove self access_token p c model_name model_version w
  = match (next_fault (faults w)).1 with
    | Some e => (Raise e, set_faults (next_fault (faults w)).2 (staged p c w))
    | None =>
        (Return (), pushed p c (model_remote_path self model_name model_version None) w)
    end.
Proof. intros ->. apply stage_push_remove_cwd. Qed.

End Staging.

Lemma no_slash_app s1 s2 :
  no_slash s1 = true → no_slash s2 = true → no_slash (s1 +:+ s2) = true.
Proof.
  intros H1 H2. induction s1 as [|c s1 IH]; simpl in *; [done |].
  apply andb_prop in H1 as [Hc H1]. by rewrite Hc, IH.
Qed.





(** ** Retrieving a model version *)

(** C5, as the code has it: [os.mkdir] returns [None], so the destination
    handed to [pull_directory] and the directory the model is restored from
    are [None]; whatever [pull_directory] does, joining [None] with
    ["model"] raises and the call never returns the restored object. *)
Theorem get_model_version_never_returns :
  ∀ (pull_directory : string → string → string → option string → M unit)
    (self : MLGitClient) (model_name model_version : string) (w : World),
    returned (get_model_version pull_directory self model_name model_version w).1 = false.
Proof.
  intros pull self m v w. unfold get_model_version.
  rewrite bind_run. simpl. rewrite bind_run. unfold os_mkdir.
  destruct (exists_locally (os_path_join (cwd w) "temp_model_version") w); [done |].
  destruct (parent_error (os_path_join (cwd w) "temp_model_version") w); [done |].
  rewrite !bind_run.
  match goal with |- context [pull ?a ?b ?c ?d ?x] => destruct (pull a b c d x) as [[[]|e] w'] end;
    done.
Qed.

Example get_model_version_raises_and_leaves_directory :
  let r := get_model_version (λ _ _ _ _, mret ()) acct "m" "v1" registry_with_v1 in
  r.1 = Raise TypeError ∧ elements (local_dirs r.2) = ["/home/user/temp_model_version"].
Proof. vm_compute. done. Qed.

(** ** Logging a backtest *)

Section Backtest.

Variable self : MLGitClient.

Lemma get_model_backtest_run model_name w :
  get_model_backtest self model_name w
  = let w' := set_faults (next_fault (faults w)).2 w in
    match (next_fault (faults w)).1 with
    | Some e => (Raise e, w')
    | None =>
        (match remote w !! backtest_path self model_name with
         | Some c => read_backtest c
         | None => Raise NotFound
         end, w')
    end.
Proof.
  unfold get_model_backtest, get_pandas_artifact, pd_read_csv, web_remote_fpath,
    backtest_path.
  unfold mbind, M_bind. rewrite transfer_run.
  destruct (next_fault (faults w)).1 as [e|]; simpl; [done |].
  unfold fetch, lift, read_backtest, mret, M_ret, raise. simpl.
  destruct (remote w !! _) as [c|]; [| done].
  destruct (parse_csv c) as [t|e]; simpl; [| done].
  case_bool_decide; simpl; [| done].
  by destruct (to_datetime_rows _ _ _).
Qed.

Lemma get_model_backtest_frames model_name w :
  frames (get_model_backtest self model_name w).2 = frames w.
Proof.
  rewrite get_model_backtest_run. simpl.
  by destruct (next_fault (faults w)).1.
Qed.


Lemma set_frames_set_frames h h' w : set_frames h (set_frames h' w) = set_frames h w.
Proof. reflexivity. Qed.

Lemma set_frames_id w : set_frames (frames w) w = w.
Proof. by destruct w. Qed.

(** [log_model_backtest] normalizes the caller's frame in place, reads
    the prior series, and logs the new series alone when that read raises,
    the merge otherwise. *)
Lemma log_model_backtest_run access_token r model_name version_timestamp df w :
  frames w !! r = Some df →
  let df' := normalized_frame df version_timestamp in
  let ts := normalized_timestamp df version_timestamp in
  log_model_backtest self access_token r model_name version_timestamp w
  = match get_model_backtest self model_name
            (set_frames (<[r := df']> (frames w)) w) with
    | (Return prior, w') =>
        match merge_backtest prior df' ts with
        | Return new =>
            log_pandas_artifact self access_token new "backtest" model_name None w'
        | Raise e => (Raise e, w')
        end
    | (Raise _, w') =>
        log_pandas_artifact self access_token df' "backtest" model_name None w'
    end.
Proof.
  intros Hr df' ts. subst df' ts. unfold log_model_backtest.
  unfold mbind, M_bind, deref, assign, mret, M_ret, try_except, lift. rewrite Hr.
  unfold normalized_frame, normalized_timestamp, with_timestamp_index, with_index_name.
  destruct (index_dtype_of df) eqn:Hd; simpl; rewrite ?Hr, ?lookup_insert_eq; simpl;
    destruct (index_name df) eqn:Hn; simpl; rewrite ?Hr, ?lookup_insert_eq; simpl;
    rewrite ?lookup_insert_eq; simpl; rewrite ?insert_insert_eq;
    unfold set_frames; simpl;
    match goal with
    | |- context [get_model_backtest self model_name ?w0] =>
        pose proof (get_model_backtest_frames model_name w0) as Hf;
        destruct (get_model_backtest self model_name w0) as [[prior|e] w']
    end; simpl in Hf; rewrite Hf, lookup_insert_eq; done.
Qed.

End Backtest.

Section BacktestEffects.

Variable self : MLGitClient.




Lemma normalized_frame_columns df version_timestamp :
  columns (normalized_frame df version_timestamp)
  = let cols := LStr ∘ str <$> columns df in
    if bool_decide (LStr "version_timestamp" ∈ cols) then cols
    else cols ++ [LStr "version_timestamp"].
Proof.
  unfold normalized_frame, setitem_scalar, with_index_name, with_timestamp_index.
  destruct (index_dtype_of df), (index_name df) eqn:Hn; simpl; rewrite ?Hn; simpl;
    by case_bool_decide.
Qed.



End BacktestEffects.



(** ** Failures *)

(** A failure of the first step of a sequence is the failure of the
    sequence: nothing but [try_except] takes an error away. *)
Lemma bind_raise {A B} (m : M A) (f : A → M B) (w w' : World) (e : error) :
  m w = (Raise e, w') → (m ≫= f) w = (Raise e, w').
Proof. intros H. by rewrite bind_run, H. Qed.

(** ** The first backtest log *)


Section FirstWrite.

Variable self : MLGitClient.

Lemma to_datetime_columns_last cols cs v :
  "version_timestamp" ∉ cols →
  length cs = length cols →
  to_datetime v = Return v →
  to_datetime_columns "version_timestamp" (cols ++ ["version_timestamp"]) (cs ++ [v])
  = Return (cs ++ [v]).
Proof.
  intros Hcols Hlen Hv. revert cs Hlen.
  induction cols as [|c cols IH]; intros [|x cs] Hlen; simplify_eq/=.
  - by rewrite Hv.
  - apply not_elem_of_cons in Hcols as [Hc Hcols].
    rewrite bool_decide_eq_false_2 by done. simpl.
    by rewrite (IH Hcols cs).
Qed.

Lemma to_datetime_rows_id l cols rs :
  Forall (λ r : row, to_datetime_columns l cols r.2 = Return r.2) rs →
  to_datetime_rows l cols rs = Return rs.
Proof.
  induction 1 as [|[k cs] rs Hr _ IH]; simpl in *; [done |].
  by rewrite Hr, IH.
Qed.

Lemma to_datetime_normalized df version_timestamp :
  let v := cell_of_stamp (normalized_timestamp df version_timestamp) in
  to_datetime v = Return v.
Proof.
  unfold normalized_timestamp. simpl.
  by destruct (default (index_max df) version_timestamp).
Qed.














End FirstWrite.

Lemma backtest_upload_path self model_name d :
  model_remote_path self model_name None None +:+ "/"
    +:+ basename (os_path_join d "backtest.csv")
  = backtest_path self model_name.
Proof.
  unfold backtest_path.
  by rewrite basename_os_path_join, model_remote_path_artifact.
Qed.




(** ** Logging a model version *)

Section Uploads.

Implicit Types (fs : list (string * content)) (r : gmap string content).

Lemma upload_lookup_notin fs r k : k ∉ fs.*1 → upload fs r !! k = r !! k.
Proof.
  induction fs as [|[k' c] fs IH]; simpl; [done |].
  intros [Hk Hfs]%not_elem_of_cons.
  rewrite lookup_insert_ne by done. by apply IH.
Qed.

Lemma upload_lookup_in fs r k : k ∈ fs.*1 → is_Some (upload fs r !! k).
Proof.
  induction fs as [|[k' c] fs IH]; simpl; [by intros ?%elem_of_nil |].
  intros Hk. destruct (decide (k' = k)) as [->|Hne].
  - rewrite lookup_insert_eq. by eexists.
  - rewrite lookup_insert_ne by done.
    apply elem_of_cons in Hk as [->|Hk]; [done | by apply IH].
Qed.

(** A push only adds files or replaces their content. *)
Lemma upload_mono fs r k : is_Some (r !! k) → is_Some (upload fs r !! k).
Proof.
  intros Hk. destruct (decide (k ∈ fs.*1)).
  - by apply upload_lookup_in.
  - by rewrite upload_lookup_notin.
Qed.

Lemma files_below_keys d to (lf : gmap string content) k :
  k ∈ (files_below d to lf).*1 → ∃ rel, k = to +:+ "/" +:+ rel.
Proof.
  intros ([k' c] & -> & Hin)%list_elem_of_fmap.
  apply list_elem_of_omap in Hin as ([p c'] & _ & Hsome). simpl in Hsome.
  destruct (relative_to d p) as [rel|]; simplify_eq/=. by exists rel.
Qed.

Lemma files_below_elem d to (lf : gmap string content) p c rel :
  lf !! p = Some c → relative_to d p = Some rel →
  to +:+ "/" +:+ rel ∈ (files_below d to lf).*1.
Proof.
  intros Hp Hrel. apply list_elem_of_fmap. exists (to +:+ "/" +:+ rel, c).
  split; [done |]. apply list_elem_of_omap. exists (p, c).
  split; [by apply elem_of_map_to_list |]. simpl. by rewrite Hrel.
Qed.

End Uploads.

Section VersionLogging.

Variable self : MLGitClient.

Lemma versions_upload_path model_name d :
  model_remote_path self model_name None None +:+ "/"
    +:+ basename (os_path_join d "versions.json")
  = versions_path self model_name.
Proof.
  unfold versions_path.
  by rewrite basename_os_path_join, model_remote_path_artifact.
Qed.

(** The version list does not lie below any version directory. *)
Lemma versions_path_not_below model_name model_version rel :
  versions_path self model_name
  ≠ model_remote_path self model_name (Some model_version) None +:+ "/" +:+ rel.
Proof.
  unfold versions_path.
  rewrite model_remote_path_artifact, model_remote_path_version, string_app_assoc.
  intros Heq%String.app_inj. simpl in Heq. injection Heq as Heq.
  by apply (no_slash_split "versions.json" model_version rel).
Qed.

Lemma append_version_ids j j' v :
  append j (JStr v) = Return j' → version_ids j' = version_ids j ++ [v].
Proof.
  destruct j; simpl; intros; simplify_eq. simpl.
  by rewrite omap_app.
Qed.

(** What [log_model_version_from_local] leaves in the remote store:
    nothing new when the directory push raised; the pushed directory,
    and the call raising, when a later step raised; the pushed directory
    and the extended version list when it returned. *)
Lemma log_model_version_from_local_remote access_token model_name model_version d w :
  let x := log_model_version_from_local self access_token model_name model_version d w in
  let up := upload (files_below d (model_remote_path self model_name (Some model_version)
                                     None) (local_files w)) (remote w) in
  (returned x.1 = false ∧ remote x.2 = remote w)
  ∨ (returned x.1 = false ∧ remote x.2 = up)
  ∨ (∃ j j', x.1 = Return () ∧ local_dirs x.2 = local_dirs w ∧ d ∈ local_dirs w
             ∧ up !! versions_path self model_name = Some (FJson j)
             ∧ append j (JStr model_version) = Return j'
             ∧ remote x.2 = <[versions_path self model_name := FJson j']> up).
Proof.
  intros x up. subst x.
  unfold log_model_version_from_local, push_directory, get_version_list,
    get_json_artifact, read_remote_file.
  unfold mbind, M_bind. rewrite transfer_run.
  destruct (next_fault (faults w)).1; simpl; [by left |].
  unfold store_directory. simpl. case_bool_decide; simpl; [| by left].
  fold up. rewrite transfer_run. simpl.
  destruct (next_fault (next_fault (faults w)).2).1; simpl; [by right; left |].
  unfold fetch. simpl. fold (versions_path self model_name).
  destruct (up !! versions_path self model_name) as [c|] eqn:Hc; simpl; [| by right; left].
  unfold lift. destruct c as [j| |]; simpl; [| by right; left | by right; left].
  destruct (append j (JStr model_version)) as [j'|e] eqn:Hj; simpl; [| by right; left].
  rewrite log_json_artifact_run, stage_push_remove_run.
  destruct (write_error _ _); simpl; [by right; left |].
  destruct (next_fault (next_fault (next_fault (faults w)).2).2).1; simpl;
    [by right; left |].
  right; right. exists j, j'.
  pose proof (versions_upload_path model_name (cwd w)) as Hp. simpl in Hp.
  repeat (split; [done |]).
  by rewrite Hp.
Qed.

Lemma insert_mono (r : gmap string content) k k' c :
  is_Some (r !! k) → is_Some (<[k' := c]> r !! k).
Proof.
  intros Hk. destruct (decide (k' = k)) as [->|Hne].
  - rewrite lookup_insert_eq. by eexists.
  - by rewrite lookup_insert_ne.
Qed.

(** The same for [log_model_version]: the pushed directory holds the
    serialized model. *)
Lemma log_model_version_remote access_token pickable_model model_name model_version w :
  let x := log_model_version self access_token pickable_model model_name model_version w in
  (returned x.1 = false ∧ remote x.2 = remote w)
  ∨ ∃ fs,
      (∀ k, k ∈ fs.*1 →
            ∃ rel, k = model_remote_path self model_name (Some model_version) None
                       +:+ "/" +:+ rel)
      ∧ model_artifact_path self model_name model_version ∈ fs.*1
      ∧ ((returned x.1 = false ∧ remote x.2 = upload fs (remote w))
         ∨ (∃ j j', x.1 = Return ()
                    ∧ upload fs (remote w) !! versions_path self model_name = Some (FJson j)
                    ∧ append j (JStr model_version) = Return j'
                    ∧ remote x.2
                      = <[versions_path self model_name := FJson j']> (upload fs (remote w)))).
Proof.
  intros x. assert (x = log_model_version self access_token pickable_model model_name
                          model_version w) as Hx by done.
  clearbody x.
  unfold log_model_version, make_model_version_local_paths in Hx.
  unfold mbind, M_bind, os_getcwd, os_path_exists, mret, M_ret in Hx. simpl in Hx.
  set (d := os_path_join (cwd w) model_version) in *.
  set (f := os_path_join d "model") in *.
  assert ((∃ e, (if negb (exists_locally d w) return M unit
                 then os_makedirs d else λ w0, (Return (), w0)) w = (Raise e, w))
          ∨ ∃ wA, (if negb (exists_locally d w) return M unit
                   then os_makedirs d else λ w0, (Return (), w0)) w = (Return (), wA)
                  ∧ remote wA = remote w) as [[e He]|(wA & HwA & HA)].
  { unfold os_makedirs. destruct (exists_locally d w) eqn:He; simpl.
    - right. by exists w.
    - rewrite He. case_bool_decide; [left; by eexists | right; by eexists]. }
  { rewrite He in Hx. left. by subst x. }
  rewrite HwA in Hx. unfold save, write_file in Hx.
  match type of Hx with
  | context [write_error ?a ?b] => destruct (write_error a b)
  end; simpl in Hx; [left; subst x; by split |].
  set (wB := set_local_files (<[f := FBlob pickable_model]> (local_files wA)) wA) in *.
  pose proof (log_model_version_from_local_remote access_token model_name model_version
                d wB) as Hshape.
  cbv zeta in Hshape.
  destruct (log_model_version_from_local self access_token model_name model_version d wB)
    as [o wC].
  simpl in Hshape. rewrite HA in Hshape.
  set (fs := files_below d (model_remote_path self model_name (Some model_version) None)
               (<[f := FBlob pickable_model]> (local_files wA))) in *.
  assert (model_artifact_path self model_name model_version ∈ fs.*1) as Hmodel.
  { unfold model_artifact_path. rewrite model_remote_path_artifact.
    apply (files_below_elem _ _ _ f (FBlob pickable_model)).
    - apply lookup_insert_eq.
    - by apply relative_to_os_path_join. }
  destruct Hshape as [[Ho Hr]|[[Ho Hr]|(j & j' & -> & Hdirs & Hd & Hj & Hj' & Hr)]].
  - left. destruct o; [done |]. by subst x.
  - right. exists fs. split; [apply files_below_keys |]. split; [done |].
    left. destruct o; [done |]. by subst x.
  - right. exists fs. split; [apply files_below_keys |]. split; [done |].
    right. exists j, j'. unfold shutil_rmtree in Hx.
    rewrite Hdirs, bool_decide_eq_true_2 in Hx by done. by subst x.
Qed.

End VersionLogging.

Section VersionOrder.

Variable self : MLGitClient.

Lemma listed_versions_upload model_name model_version fs r :
  (∀ k, k ∈ fs.*1 →
        ∃ rel, k = model_remote_path self model_name (Some model_version) None
                   +:+ "/" +:+ rel) →
  listed_versions self model_name (upload fs r) = listed_versions self model_name r.
Proof.
  intros Hkeys. unfold listed_versions. rewrite upload_lookup_notin; [done |].
  intros [rel Hrel]%Hkeys. by eapply versions_path_not_below.
Qed.

Lemma pushed_version_upload model_name fs r v :
  pushed_version self model_name r v = true →
  pushed_version self model_name (upload fs r) v = true.
Proof.
  unfold pushed_version. intros H%bool_decide_eq_true.
  by apply bool_decide_eq_true, upload_mono.
Qed.

Lemma pushed_version_insert model_name r k c v :
  pushed_version self model_name r v = true →
  pushed_version self model_name (<[k := c]> r) v = true.
Proof.
  unfold pushed_version. intros H%bool_decide_eq_true.
  by apply bool_decide_eq_true, insert_mono.
Qed.

End VersionOrder.

(** C7: [log_model_version] pushes the version directory before it touches
    the version list.  Whatever the transport does, the call ends in one of
    three states: it raised with nothing pushed; it raised with the version
    pushed and the version list as it was (pushed but unlisted); or it
    returned with the version pushed and its id appended to the list.  So a
    store in which every listed version has its content stays such a
    store. *)
Theorem version_is_pushed_before_it_is_listed :
  ∀ (self : MLGitClient) (access_token : string) (pickable_model : PickableObject)
    (model_name model_version : string) (w : World),
    let x := log_model_version self access_token pickable_model model_name model_version w in
    (listed_versions_are_pushed self model_name (remote w) = true →
     listed_versions_are_pushed self model_name (remote x.2) = true)
    ∧ ((returned x.1 = false ∧ remote x.2 = remote w)
       ∨ (returned x.1 = false
          ∧ pushed_version self model_name (remote x.2) model_version = true
          ∧ listed_versions self model_name (remote x.2)
            = listed_versions self model_name (remote w))
       ∨ (x.1 = Return ()
          ∧ pushed_version self model_name (remote x.2) model_version = true
          ∧ listed_versions self model_name (remote x.2)
            = listed_versions self model_name (remote w) ++ [model_version])).
Proof.
  intros self access_token pickable_model model_name model_version w x.
  destruct (log_model_version_remote self access_token pickable_model model_name
              model_version w)
    as [[Ho Hr]|(fs & Hkeys & Hmodel & [[Ho Hr]|(j & j' & Ho & Hj & Hj' & Hr)])];
    fold x in Ho, Hr.
  - split; [by rewrite Hr | by left].
  - assert (pushed_version self model_name (remote x.2) model_version = true) as Hp.
    { rewrite Hr. by apply bool_decide_eq_true, upload_lookup_in. }
    assert (listed_versions self model_name (remote x.2)
            = listed_versions self model_name (remote w)) as Hl.
    { rewrite Hr. by eapply listed_versions_upload. }
    split; [| by right; left].
    unfold listed_versions_are_pushed. rewrite Hl, !forallb_forall.
    intros Hinv v Hv. rewrite Hr. by apply pushed_version_upload, Hinv.
  - assert (pushed_version self model_name (remote x.2) model_version = true) as Hp.
    { rewrite Hr. by apply pushed_version_insert, bool_decide_eq_true, upload_lookup_in. }
    assert (listed_versions self model_name (remote w) = version_ids j) as Hold.
    { rewrite <- (listed_versions_upload self model_name model_version fs) by done.
      unfold listed_versions. by rewrite Hj. }
    assert (listed_versions self model_name (remote x.2)
            = listed_versions self model_name (remote w) ++ [model_version]) as Hl.
    { rewrite Hold, Hr. unfold listed_versions. rewrite lookup_insert_eq.
      by apply append_version_ids. }
    split; [| by right; right].
    unfold listed_versions_are_pushed. rewrite Hl, forallb_app, !forallb_forall.
    intros Hinv. apply andb_true_intro. split.
    + apply forallb_forall. intros v Hv. rewrite Hr.
      by apply pushed_version_insert, pushed_version_upload, Hinv.
    + simpl. by rewrite Hp.
Qed.

Lemma version_is_pushed_before_it_is_listed_witness :
  let x := log_model_version acct "token" "weights" "m" "v1" failure_after_push in
  listed_versions_are_pushed acct "m" (remote x.2) = true
  ∧ x.1 = Raise Timeout
  ∧ pushed_version acct "m" (remote x.2) "v1" = true
  ∧ listed_versions acct "m" (remote x.2) = [].
Proof.
  destruct (version_is_pushed_before_it_is_listed acct "token" "weights" "m" "v1"
              failure_after_push) as [Hinv _].
  split; [apply Hinv; reflexivity |].
  clear Hinv. vm_compute. repeat split.
Defined.

(** ** The backtest merge *)


Section Override.

Implicit Types (rs repl : list row) (f : row → bool).

Lemma getitem_mask_filter f rs : getitem_mask rs (f <$> rs) = filter f rs.
Proof.
  induction rs as [|r rs IH]; simpl; [done |].
  rewrite filter_cons. destruct (f r); simpl; [f_equal |]; exact IH.
Qed.

Lemma iloc_assign_none rs mask repl :
  getitem_mask rs mask = [] → iloc_assign rs mask repl = rs.
Proof.
  revert mask. induction rs as [|x rs IH]; intros [|[] mask] H; simpl in *; try done.
  by rewrite IH.
Qed.

Lemma iloc_assign_index rs mask repl : (iloc_assign rs mask repl).*1 = rs.*1.
Proof.
  revert mask repl. induction rs as [|r rs IH]; intros [|[] mask] repl; simpl; try done.
  - destruct repl; simpl; by rewrite IH.
  - by rewrite IH.
Qed.

(** Assignment by position under a mask: a selected row takes the cells
    of its replacement, any other row stays. *)
Lemma iloc_assign_lookup (P : row → row → Prop) f rs repl :
  Forall2 P (filter f rs) repl →
  ∀ i r, rs !! i = Some r →
    if f r then ∃ v, P r v ∧ iloc_assign rs (f <$> rs) repl !! i = Some (r.1, v.2)
    else iloc_assign rs (f <$> rs) repl !! i = Some r.
Proof.
  revert repl. induction rs as [|r0 rs IH]; intros repl HF i r Hi; [done |].
  rewrite filter_cons in HF. simpl.
  destruct (f r0) eqn:Hf0; simpl in HF.
  - destruct (decide (f r0)) as [_|Hn]; [| by rewrite Hf0 in Hn].
    inversion HF as [|? v ? vs Hv HF']; subst.
    destruct i as [|i]; simpl in Hi.
    + injection Hi as <-. rewrite Hf0. by exists v.
    + by apply IH.
  - destruct (decide (f r0)) as [Hy|_]; [by rewrite Hf0 in Hy |].
    destruct i as [|i]; simpl in Hi.
    + injection Hi as <-. by rewrite Hf0.
    + by apply IH.
Qed.

(** Reindexing to keys the frame has: every key gets a row of the frame
    with that key. *)
Lemma reindex_rows value keys :
  NoDup (index value) →
  (∀ k, k ∈ keys → k ∈ index value) →
  ∃ repl, reindex value keys = Return repl
          ∧ Forall2 (λ k (v : row), v.1 = k ∧ v ∈ rows value) keys repl.
Proof.
  intros Hnd Hkeys. unfold reindex. case_bool_decide as Heq.
  - eexists. split; [done |]. subst keys. unfold index.
    apply Forall2_fmap_l, Forall_Forall2_diag, Forall_forall. by intros v Hv.
  - rewrite bool_decide_eq_true_2 by done.
    eexists. split; [done |].
    apply Forall2_fmap_r, Forall_Forall2_diag, Forall_forall. intros k Hk.
    apply Hkeys in Hk. unfold index in Hk.
    apply list_elem_of_fmap in Hk as (v & -> & Hv).
    destruct (list_find_elem_of (λ r : row, r.1 = v.1) (rows value) v Hv eq_refl)
      as [[i v'] Hfind].
    simpl. rewrite Hfind. apply list_find_Some in Hfind as (Hi & Hkey & _).
    split; [done |]. by eapply list_elem_of_lookup_2.
Qed.

End Override.

Lemma override_mask_spec new_index version_timestamp pos (r : row) :
  override_mask new_index version_timestamp pos r = true
  ↔ override_condition new_index version_timestamp r.1 (cell_at pos r).
Proof.
  unfold override_mask, override_condition, time_gt, time_lt.
  rewrite !andb_true_iff, bool_decide_eq_true.
  destruct (cell_at pos r) as [| |t_old| | | |], version_timestamp as [t_new| |]; simpl;
    try (split; [intros [[_ ?] ?]; done | intros [_ (? & ? & ? & ? & _)]; done]).
  rewrite !bool_decide_eq_true. split.
  - intros [[Hin Hgt] Hlt]. split; [done |]. by exists t_old, t_new.
  - intros [Hin (? & ? & ? & ? & Hgt & Hlt)]. by simplify_eq.
Qed.

Lemma normalized_frame_has_version_column df version_timestamp :
  ∃ pos, column_position (LStr "version_timestamp")
           (columns (normalized_frame df version_timestamp)) = Return pos.
Proof.
  unfold column_position.
  destruct (list_find_elem_of (λ c, c = LStr "version_timestamp")
              (columns (normalized_frame df version_timestamp))
              (LStr "version_timestamp")) as [[i c] ->]; [| done | by exists i].
  rewrite normalized_frame_columns. simpl. case_bool_decide; [done |].
  apply elem_of_app. right. by left.
Qed.

Section Merge.

Variables (self : MLGitClient) (access_token : string) (r : nat) (model_name : string).
Variables (version_timestamp : option stamp) (df prior : DataFrame) (w w' : World).

Local Abbreviation new := (normalized_frame df version_timestamp).
Local Abbreviation ts := (normalized_timestamp df version_timestamp).

Hypothesis Hframe : frames w !! r = Some df.
Hypothesis Hprior :
  get_model_backtest self model_name (set_frames (<[r := new]> (frames w)) w)
  = (Return prior, w').
Hypothesis Hcolumns : columns prior = columns new.
Hypothesis Hunique : NoDup (index new).

(** With a prior series read, columns that agree and a new index without
    duplicates, the merge goes through: the prior rows are overridden in
    place under the mask, the new rows with keys the prior series lacks
    are appended, and the sorted table is what is logged. *)
Lemma log_model_backtest_merge_run :
  ∃ pos prior',
    column_position (LStr "version_timestamp") (columns new) = Return pos
    ∧ index prior' = index prior
    ∧ (∀ i (x : row), rows prior !! i = Some x →
         if override_mask (index new) ts pos x
         then ∃ v : row, (v.1 = x.1 ∧ v ∈ rows new)
                         ∧ rows prior' !! i = Some (x.1, v.2)
         else rows prior' !! i = Some x)
    ∧ log_model_backtest self access_token r model_name version_timestamp w
      = log_pandas_artifact self access_token
          (sort_index (concat prior' (drop_keys (index prior) new)))
          "backtest" model_name None w'
    ∧ rows (sort_index (concat prior' (drop_keys (index prior) new)))
      = merge_sort key_le
          (rows prior' ++ filter (λ x : row, x.1 ∉ index prior) (rows new)).
Proof.
  destruct (normalized_frame_has_version_column df version_timestamp) as [pos Hpos].
  set (f := override_mask (index new) ts pos).
  destruct (reindex_rows new ((filter f (rows prior)).*1) Hunique)
    as (repl & Hrepl & HF).
  { intros k (x & -> & Hrow)%list_elem_of_fmap.
    apply list_elem_of_filter in Hrow as [Hf _].
    apply Is_true_true, override_mask_spec in Hf. by destruct Hf. }
  set (prior' := {| index_dtype_of := index_dtype_of prior;
                    index_name := index_name prior;
                    columns := columns prior;
                    rows := iloc_assign (rows prior) (f <$> rows prior) repl |}).
  assert (setitem_mask prior (f <$> rows prior) new = Return prior') as Hset.
  { unfold setitem_mask. rewrite (getitem_mask_filter f (rows prior)), Hrepl. simpl.
    case_bool_decide as Hnone.
    - f_equal. subst prior'. rewrite iloc_assign_none; [by destruct prior |].
      by rewrite getitem_mask_filter.
    - rewrite bool_decide_eq_true_2; [done | by rewrite Hcolumns]. }
  exists pos, prior'.
  split; [done |].
  split; [apply iloc_assign_index |].
  split.
  { intros i x Hi.
    pose proof (iloc_assign_lookup (λ y v : row, v.1 = y.1 ∧ v ∈ rows new)
                  f (rows prior) repl) as Hlookup.
    apply Hlookup; [| done]. by apply Forall2_fmap_l in HF. }
  assert (merge_backtest prior new ts
          = Return (sort_index (concat prior' (drop_keys (index prior) new)))) as Hmerge.
  { unfold merge_backtest. rewrite Hcolumns, Hpos. simpl. fold f. rewrite Hset. simpl.
    do 4 f_equal. apply iloc_assign_index. }
  split.
  { rewrite (log_model_backtest_run _ _ _ _ _ _ _ Hframe). cbv zeta.
    by rewrite Hprior, Hmerge. }
  unfold sort_index, concat. simpl.
  by rewrite Hcolumns, bool_decide_eq_true_2.
Qed.

End Merge.

Lemma setitem_scalar_cell l c d pos (v : row) :
  rectangular d →
  column_position l (columns (setitem_scalar l c d)) = Return pos →
  v ∈ rows (setitem_scalar l c d) →
  cell_at pos v = c.
Proof.
  unfold rectangular, column_position, setitem_scalar, cell_at.
  rewrite Forall_forall. intros Hrect.
  case_bool_decide as Hl; simpl.
  - destruct (list_find _ _) as [[i l']|] eqn:Hfind; [| done].
    intros [= ->]. apply list_find_Some in Hfind as (Hi & -> & _).
    intros (row & -> & Hrow)%list_elem_of_fmap. simpl.
    rewrite lookup_zip_with, Hi. simpl.
    destruct (lookup_lt_is_Some_2 row.2 pos) as [x ->].
    { rewrite (Hrect _ Hrow). by eapply lookup_lt_Some. }
    simpl. by rewrite bool_decide_eq_true_2.
  - rewrite list_find_app_r.
    2: { apply list_find_None, Forall_forall. by intros ? ? ->. }
    simpl. rewrite decide_True by done. simpl.
    intros [= <-] (row & -> & Hrow)%list_elem_of_fmap. simpl.
    rewrite <- (Hrect _ Hrow), lookup_app_r by lia.
    by rewrite Nat.sub_diag.
Qed.

Lemma normalized_frame_version_cell df version_timestamp pos (v : row) :
  rectangular df →
  column_position (LStr "version_timestamp")
    (columns (normalized_frame df version_timestamp)) = Return pos →
  v ∈ rows (normalized_frame df version_timestamp) →
  cell_at pos v = cell_of_stamp (normalized_timestamp df version_timestamp).
Proof.
  intros Hrect. apply setitem_scalar_cell.
  unfold rectangular in *. rewrite Forall_forall in *.
  unfold with_index_name, with_timestamp_index.
  destruct (index_dtype_of df), (index_name df) eqn:Hn; simpl; rewrite ?Hn; simpl;
    rewrite length_fmap; try done;
    intros row (row' & -> & Hrow)%list_elem_of_fmap; simpl; by apply Hrect.
Qed.

(** C1, as the code has it: with a prior series read whose columns are
    those of the new series (its [version_timestamp] column included, in
    the same order), and a new series that repeats no key, a prior row with
    key [k] is overridden in place by the new series' row for [k] exactly
    when [k] is in the new index, the row's recorded version timestamp is
    strictly greater than the new one, and [k] is strictly less than the
    recorded one; the row then carries the new values and the new version
    timestamp. *)
Theorem prior_row_overridden_exactly_under_mask :
  ∀ (self : MLGitClient) (access_token : string) (r : nat) (model_name : string)
    (version_timestamp : option stamp) (df prior : DataFrame) (w w' : World),
    let new := normalized_frame df version_timestamp in
    let ts := normalized_timestamp df version_timestamp in
    frames w !! r = Some df →
    get_model_backtest self model_name (set_frames (<[r := new]> (frames w)) w)
    = (Return prior, w') →
    columns prior = columns new →
    NoDup (index new) →
    rectangular df →
    ∃ pos prior' stored,
      column_position (LStr "version_timestamp") (columns prior) = Return pos
      ∧ log_model_backtest self access_token r model_name version_timestamp w
        = log_pandas_artifact self access_token stored "backtest" model_name None w'
      ∧ rows stored
        = merge_sort key_le
            (rows prior' ++ filter (λ x : row, x.1 ∉ index prior) (rows new))
      ∧ ∀ i k cells, rows prior !! i = Some (k, cells) →
          (override_condition (index new) ts k (cell_at pos (k, cells)) →
           ∃ new_cells,
             (k, new_cells) ∈ rows new
             ∧ rows prior' !! i = Some (k, new_cells)
             ∧ cell_at pos (k, new_cells) = cell_of_stamp ts)
          ∧ (¬ override_condition (index new) ts k (cell_at pos (k, cells)) →
             rows prior' !! i = Some (k, cells)).
Proof.
  intros self access_token r model_name version_timestamp df prior w w' new ts
    Hframe Hprior Hcolumns Hunique Hrect.
  destruct (log_model_backtest_merge_run self access_token r model_name version_timestamp
              df prior w w' Hframe Hprior Hcolumns Hunique)
    as (pos & prior' & Hpos & Hindex & Hrows & Hlog & Hstored).
  fold new in Hpos, Hrows, Hlog, Hstored. fold ts in Hrows.
  exists pos, prior'. eexists.
  split; [by rewrite Hcolumns |].
  split; [exact Hlog |].
  split; [exact Hstored |].
  intros i k cells Hi. specialize (Hrows i (k, cells) Hi).
  pose proof (override_mask_spec (index new) ts pos (k, cells)) as Hspec.
  simpl in Hspec.
  destruct (override_mask (index new) ts pos (k, cells)).
  - split.
    + intros _. cbv iota in Hrows.
      destruct Hrows as ([k' new_cells] & [Hk Hin] & Hlookup).
      simpl in *. subst k'. exists new_cells.
      split; [done |]. split; [done |].
      by apply (normalized_frame_version_cell df version_timestamp).
    + intros Hn. exfalso. apply Hn. by apply Hspec.
  - split; [| done]. intros Hc. apply Hspec in Hc. done.
Qed.

Lemma prior_row_overridden_exactly_under_mask_witness :
  ∃ pos prior' stored,
    column_position (LStr "version_timestamp") (columns stored_frame) = Return pos
    ∧ log_model_backtest acct "token" 0%nat "m" (Some (Timestamp 3)) merge_world
      = log_pandas_artifact acct "token" stored "backtest" "m" None
          (get_model_backtest acct "m" merge_world_normalized).2
    ∧ rows stored
      = merge_sort key_le
          (rows prior'
           ++ filter (λ x : row, x.1 ∉ index stored_frame)
                (rows (normalized_frame new_backtest (Some (Timestamp 3)))))
    ∧ ∀ i k cells, rows stored_frame !! i = Some (k, cells) →
        (override_condition (index (normalized_frame new_backtest (Some (Timestamp 3))))
           (normalized_timestamp new_backtest (Some (Timestamp 3))) k
           (cell_at pos (k, cells)) →
         ∃ new_cells,
           (k, new_cells) ∈ rows (normalized_frame new_backtest (Some (Timestamp 3)))
           ∧ rows prior' !! i = Some (k, new_cells)
           ∧ cell_at pos (k, new_cells)
             = cell_of_stamp (normalized_timestamp new_backtest (Some (Timestamp 3))))
        ∧ (¬ override_condition
               (index (normalized_frame new_backtest (Some (Timestamp 3))))
               (normalized_timestamp new_backtest (Some (Timestamp 3))) k
               (cell_at pos (k, cells)) →
           rows prior' !! i = Some (k, cells)).
Proof.
  apply (prior_row_overridden_exactly_under_mask acct "token" 0%nat "m"
           (Some (Timestamp 3)) new_backtest stored_frame merge_world
           (get_model_backtest acct "m" merge_world_normalized).2).
  - reflexivity.
  - vm_compute. reflexivity.
  - reflexivity.
  - apply (bool_decide_unpack _). vm_compute. exact I.
  - repeat constructor.
Defined.

(** C1, refuted as stated: the stored row with key 1 meets the three
    conditions (its key is in the new series, its version timestamp 5 is
    later than the new 3, and its key is earlier than 5), but the new
    series repeats the key 1: the call raises and the row is not replaced. *)
Lemma repeated_key_is_not_overridden :
  let x := log_model_backtest acct "token" 0%nat "m" (Some (Timestamp 3))
             repeated_key_world in
  index repeated_key = [1; 1]
  ∧ rows <$> (get_model_backtest acct "m" repeated_key_world).1
    = Return [(1, [CNum 10; CTime 5]); (2, [CNum 20; CTime 5])]
  ∧ x.1 = Raise ValueError
  ∧ remote x.2 !! "registry/m/backtest.csv" = Some (FCsv stored_backtest).
Proof. vm_compute. done. Qed.

(** C2, as the code has it: with a prior series read whose columns are
    those of the new series, in the same order, and a new series that
    repeats no key, the override step replaces a prior row only by a row
    carrying a strictly older version timestamp; after it, a prior row's
    version timestamp is what it was or strictly less, never more. *)
Theorem override_only_lowers_version_timestamp :
  ∀ (self : MLGitClient) (access_token : string) (r : nat) (model_name : string)
    (version_timestamp : option stamp) (df prior : DataFrame) (w w' : World),
    let new := normalized_frame df version_timestamp in
    frames w !! r = Some df →
    get_model_backtest self model_name (set_frames (<[r := new]> (frames w)) w)
    = (Return prior, w') →
    columns prior = columns new →
    NoDup (index new) →
    rectangular df →
    ∃ pos prior' stored,
      column_position (LStr "version_timestamp") (columns prior) = Return pos
      ∧ log_model_backtest self access_token r model_name version_timestamp w
        = log_pandas_artifact self access_token stored "backtest" model_name None w'
      ∧ rows stored
        = merge_sort key_le
            (rows prior' ++ filter (λ x : row, x.1 ∉ index prior) (rows new))
      ∧ ∀ i k cells, rows prior !! i = Some (k, cells) →
          ∃ cells',
            rows prior' !! i = Some (k, cells')
            ∧ (cells' = cells
               ∨ ∃ t_old t_new,
                   cell_at pos (k, cells) = CTime t_old
                   ∧ cell_at pos (k, cells') = CTime t_new
                   ∧ (t_new < t_old)%Z).
Proof.
  intros self access_token r model_name version_timestamp df prior w w' new
    Hframe Hprior Hcolumns Hunique Hrect.
  destruct (log_model_backtest_merge_run self access_token r model_name version_timestamp
              df prior w w' Hframe Hprior Hcolumns Hunique)
    as (pos & prior' & Hpos & Hindex & Hrows & Hlog & Hstored).
  fold new in Hpos, Hrows, Hlog, Hstored.
  exists pos, prior'. eexists.
  split; [by rewrite Hcolumns |].
  split; [exact Hlog |].
  split; [exact Hstored |].
  intros i k cells Hi. specialize (Hrows i (k, cells) Hi).
  pose proof (override_mask_spec (index new) (normalized_timestamp df version_timestamp)
                pos (k, cells)) as Hspec.
  simpl in Hspec.
  destruct (override_mask (index new) (normalized_timestamp df version_timestamp)
              pos (k, cells)).
  - cbv iota in Hrows.
    destruct Hrows as ([k' new_cells] & [Hk Hin] & Hlookup). simpl in *. subst k'.
    exists new_cells. split; [done |]. right.
    destruct Hspec as [Hspec _]. destruct (Hspec eq_refl) as (_ & t_old & t_new & Hold & Hts & Hlt & _).
    exists t_old, t_new. split; [done |]. split; [| done].
    rewrite (normalized_frame_version_cell df version_timestamp pos (k, new_cells))
      by done.
    fold new in Hts. by rewrite Hts.
  - exists cells. split; [done | by left].
Qed.

(** C2, refuted as stated: the row for key 1 was stored at version
    timestamp 5; logging the same key at version timestamp 3 overrides it,
    and its version timestamp drops from 5 to 3. *)
Lemma older_version_overrides_newer_row :
  let x := log_model_backtest acct "token" 0%nat "m" (Some (Timestamp 3)) merge_world in
  (get_model_backtest acct "m" merge_world).1 = Return stored_frame
  ∧ x.1 = Return ()
  ∧ rows <$> (get_model_backtest acct "m" x.2).1
    = Return [(1, [CNum 11; CTime 3]); (2, [CNum 20; CTime 5]); (3, [CNum 31; CTime 3])].
Proof. vm_compute. done. Qed.

Lemma override_only_lowers_version_timestamp_witness :
  ∃ pos prior' stored,
    column_position (LStr "version_timestamp") (columns stored_frame) = Return pos
    ∧ log_model_backtest acct "token" 0%nat "m" (Some (Timestamp 3)) merge_world
      = log_pandas_artifact acct "token" stored "backtest" "m" None
          (get_model_backtest acct "m" merge_world_normalized).2
    ∧ rows stored
      = merge_sort key_le
          (rows prior'
           ++ filter (λ x : row, x.1 ∉ index stored_frame)
                (rows (normalized_frame new_backtest (Some (Timestamp 3)))))
    ∧ ∀ i k cells, rows stored_frame !! i = Some (k, cells) →
        ∃ cells',
          rows prior' !! i = Some (k, cells')
          ∧ (cells' = cells
             ∨ ∃ t_old t_new,
                 cell_at pos (k, cells) = CTime t_old
                 ∧ cell_at pos (k, cells') = CTime t_new
                 ∧ (t_new < t_old)%Z).
Proof.
  apply (override_only_lowers_version_timestamp acct "token" 0%nat "m"
           (Some (Timestamp 3)) new_backtest stored_frame merge_world
           (get_model_backtest acct "m" merge_world_normalized).2).
  - reflexivity.
  - vm_compute. reflexivity.
  - reflexivity.
  - apply (bool_decide_unpack _). vm_compute. exact I.
  - repeat constructor.
Defined.


#[local] Instance key_le_total : Total key_le.
Proof. intros r1 r2. unfold key_le. lia. Qed.


Example disjoint_merge_gives_five_sorted_rows :
  let x := log_model_backtest acct "token" 0%nat "m" None disjoint_world in
  x.1 = Return ()
  ∧ rows <$> (get_model_backtest acct "m" x.2).1
    = Return [(1, [CNum 10; CTime 3]); (2, [CNum 20; CTime 3]); (3, [CNum 30; CTime 3]);
              (4, [CNum 40; CTime 5]); (5, [CNum 50; CTime 5])].
Proof. vm_compute. done. Qed.



(** * Further properties *)

(** ** Artifacts: what is logged is what is read *)

Section Artifacts.

Variable self : MLGitClient.

(** A staged file is pushed to the path its getter reads. *)
Lemma artifact_upload_path model_name model_version d s :
  no_slash s = true →
  model_remote_path self model_name model_version None +:+ "/"
    +:+ basename (os_path_join d s)
  = model_remote_path self model_name model_version (Some s).
Proof.
  intros Hs. by rewrite basename_os_path_join, model_remote_path_artifact.
Qed.

Lemma get_json_artifact_run artifact_name model_name model_version w :
  get_json_artifact self artifact_name model_name model_version w
  = let w' := set_faults (next_fault (faults w)).2 w in
    match (next_fault (faults w)).1 with
    | Some e => (Raise e, w')
    | None =>
        (match remote w !! model_remote_path self model_name model_version
                              (Some (artifact_name +:+ ".json")) with
         | Some c => json_loads c
         | None => Raise NotFound
         end, w')
    end.
Proof.
  unfold get_json_artifact, read_remote_file.
  unfold mbind, M_bind. rewrite transfer_run.
  destruct (next_fault (faults w)).1 as [e|]; simpl; [done |].
  unfold fetch, lift. simpl.
  by destruct (remote w !! _) as [c|].
Qed.

Lemma get_pandas_artifact_run artifact_name model_name model_version w :
  get_pandas_artifact self artifact_name model_name model_version w
  = let w' := set_faults (next_fault (faults w)).2 w in
    match (next_fault (faults w)).1 with
    | Some e => (Raise e, w')
    | None =>
        (match remote w !! model_remote_path self model_name model_version
                              (Some (artifact_name +:+ ".csv")) with
         | Some c => parse_csv c
         | None => Raise NotFound
         end, w')
    end.
Proof.
  unfold get_pandas_artifact, pd_read_csv, web_remote_fpath.
  unfold mbind, M_bind. rewrite transfer_run.
  destruct (next_fault (faults w)).1 as [e|]; simpl; [done |].
  unfold fetch, lift. simpl.
  by destruct (remote w !! _) as [c|].
Qed.

(** Staging with a transport that works: the file is in the remote store
    under its name, and gone locally. *)
Lemma stage_push_remove_pushed access_token s c model_name model_version w :
  no_slash s = true →
  s ≠ "" →
  os_path_join (cwd w) s ∉ local_dirs w →
  fault_at 0 (faults w) = None →
  ∃ w1,
    stage_push_remove self access_token (os_path_join (cwd w) s) c model_name
      model_version w = (Return (), w1)
    ∧ remote w1 = <[model_remote_path self model_name model_version (Some s) := c]> (remote w)
    ∧ faults w1 = (next_fault (faults w)).2
    ∧ cwd w1 = cwd w
    ∧ local_dirs w1 = local_dirs w
    ∧ frames w1 = frames w
    ∧ local_files w1 = delete (os_path_join (cwd w) s) (local_files w).
Proof.
  intros Hs Hne Hdir Hf. rewrite stage_push_remove_cwd by done.
  unfold fault_at in Hf. simpl in Hf. rewrite Hf.
  eexists. split; [done |]. unfold pushed. simpl.
  pose proof (artifact_upload_path model_name model_version (cwd w) s Hs) as Hp.
  simpl in Hp. by rewrite Hp.
Qed.

End Artifacts.



(** X3: [register_model] followed by [get_version_list] gives the empty
    list, whatever list was stored before: versions listed until then are
    listed no more, while their content stays in the store. *)
Theorem register_model_resets_version_list :
  ∀ (self : MLGitClient) (access_token model_name : string) (w : World),
    os_path_join (cwd w) "versions.json" ∉ local_dirs w →
    fault_at 0 (faults w) = None →
    fault_at 1 (faults w) = None →
    ∃ w1 w2,
      register_model self access_token model_name w = (Return (), w1)
      ∧ get_version_list self model_name w1 = (Return (JArr []), w2)
      ∧ listed_versions self model_name (remote w1) = []
      ∧ ∀ v, pushed_version self model_name (remote w) v = true →
             pushed_version self model_name (remote w1) v = true.
Proof.
  intros self access_token model_name w Hdir Hf0 Hf1.
  unfold register_model. rewrite log_json_artifact_run.
  destruct (stage_push_remove_pushed self access_token "versions.json"
              (FJson (JArr [])) model_name None w)
    as (w1 & Hrun & Hremote & Hfaults & _); [done | done | done | done |].
  exists w1. eexists. split; [exact Hrun |].
  split.
  { unfold get_version_list. rewrite get_json_artifact_run. cbv zeta.
    rewrite Hfaults, Hremote.
    unfold fault_at in Hf1. simpl in Hf1. rewrite Hf1.
    change ("versions" +:+ ".json") with "versions.json".
    by rewrite lookup_insert_eq. }
  split.
  { unfold listed_versions, versions_path. by rewrite Hremote, lookup_insert_eq. }
  intros v Hv. rewrite Hremote. by apply pushed_version_insert.
Qed.

Lemma register_model_resets_version_list_witness :
  ∃ w1 w2,
    register_model acct "token" "m" registry_with_v1 = (Return (), w1)
    ∧ get_version_list acct "m" w1 = (Return (JArr []), w2)
    ∧ listed_versions acct "m" (remote w1) = []
    ∧ ∀ v, pushed_version acct "m" (remote registry_with_v1) v = true →
           pushed_version acct "m" (remote w1) v = true.
Proof.
  apply (register_model_resets_version_list acct "token" "m" registry_with_v1).
  - vm_compute. set_solver.
  - reflexivity.
  - reflexivity.
Defined.

Section ArtifactFrame.

Variable self : MLGitClient.

Lemma stage_push_remove_frame access_token s c model_name model_version w :
  no_slash s = true →
  let x := stage_push_remove self access_token (os_path_join (cwd w) s) c model_name
             model_version w in
  (∀ k, k ≠ model_remote_path self model_name model_version (Some s) →
        remote x.2 !! k = remote w !! k)
  ∧ (∀ p, p ≠ os_path_join (cwd w) s → local_files x.2 !! p = local_files w !! p)
  ∧ local_dirs x.2 = local_dirs w
  ∧ frames x.2 = frames w
  ∧ cwd x.2 = cwd w.
Proof.
  intros Hs x. subst x. rewrite stage_push_remove_run.
  destruct (write_error _ w); [done |].
  destruct (next_fault (faults w)).1 as [e|]; simpl.
  - repeat split; try done. intros p Hp. by rewrite lookup_insert_ne.
  - pose proof (artifact_upload_path self model_name model_version (cwd w) s Hs) as Hp.
    simpl in Hp. rewrite Hp.
    repeat split; try done.
    + intros k Hk. by rewrite lookup_insert_ne.
    + intros p Hne. by rewrite lookup_delete_ne.
Qed.

End ArtifactFrame.

(** X4: under an artifact name without a slash, [log_json_artifact] and
    [log_pandas_artifact] touch nothing but the artifact: whether they
    return or raise, every other remote file, every local file but the
    staging file, the local directories and the caller's frames are as
    before. *)
Theorem artifact_logging_touches_only_the_artifact :
  ∀ (self : MLGitClient) (access_token : string) (j : json) (df : DataFrame)
    (artifact_name model_name : string) (model_version : option string) (w : World),
    no_slash artifact_name = true →
    let xj := log_json_artifact self access_token j artifact_name model_name
                model_version w in
    let xc := log_pandas_artifact self access_token df artifact_name model_name
                model_version w in
    ((∀ k, k ≠ model_remote_path self model_name model_version
                 (Some (artifact_name +:+ ".json")) →
           remote xj.2 !! k = remote w !! k)
     ∧ (∀ p, p ≠ os_path_join (cwd w) (artifact_name +:+ ".json") →
             local_files xj.2 !! p = local_files w !! p)
     ∧ local_dirs xj.2 = local_dirs w
     ∧ frames xj.2 = frames w)
    ∧ ((∀ k, k ≠ model_remote_path self model_name model_version
                   (Some (artifact_name +:+ ".csv")) →
             remote xc.2 !! k = remote w !! k)
       ∧ (∀ p, p ≠ os_path_join (cwd w) (artifact_name +:+ ".csv") →
               local_files xc.2 !! p = local_files w !! p)
       ∧ local_dirs xc.2 = local_dirs w
       ∧ frames xc.2 = frames w).
Proof.
  intros self access_token j df artifact_name model_name model_version w Hname xj xc.
  subst xj xc. rewrite log_json_artifact_run, log_pandas_artifact_run.
  split.
  - destruct (stage_push_remove_frame self access_token (artifact_name +:+ ".json")
                (FJson j) model_name model_version w) as (? & ? & ? & ? & _);
      [by apply no_slash_app | done].
  - destruct (stage_push_remove_frame self access_token (artifact_name +:+ ".csv")
                (FCsv (to_csv df)) model_name model_version w) as (? & ? & ? & ? & _);
      [by apply no_slash_app | done].
Qed.

Lemma artifact_logging_touches_only_the_artifact_witness :
  let xj := log_json_artifact acct "token" (JArr []) "metrics" "m" None timeout_world in
  let xc := log_pandas_artifact acct "token" period_frame "metrics" "m" None
              timeout_world in
  ((∀ k, k ≠ model_remote_path acct "m" None (Some "metrics.json") →
         remote xj.2 !! k = remote timeout_world !! k)
   ∧ (∀ p, p ≠ os_path_join (cwd timeout_world) "metrics.json" →
           local_files xj.2 !! p = local_files timeout_world !! p)
   ∧ local_dirs xj.2 = local_dirs timeout_world
   ∧ frames xj.2 = frames timeout_world)
  ∧ ((∀ k, k ≠ model_remote_path acct "m" None (Some "metrics.csv") →
           remote xc.2 !! k = remote timeout_world !! k)
     ∧ (∀ p, p ≠ os_path_join (cwd timeout_world) "metrics.csv" →
             local_files xc.2 !! p = local_files timeout_world !! p)
     ∧ local_dirs xc.2 = local_dirs timeout_world
     ∧ frames xc.2 = frames timeout_world).
Proof.
  apply (artifact_logging_touches_only_the_artifact acct "token" (JArr []) period_frame
           "metrics" "m" None timeout_world).
  reflexivity.
Defined.

(** ** Version logging: what reaches the store and what stays behind *)

Section MorePaths.

Implicit Types d p s x rel : string.



End MorePaths.

Section MoreUploads.

Implicit Types (fs : list (string * content)) (r : gmap string content).




End MoreUploads.

Section VersionRuns.

Variable self : MLGitClient.




(** Whatever happens, [log_model_version_from_local] creates and removes
    no local directory and touches no local file but the staged version
    list. *)
Lemma log_model_version_from_local_local access_token model_name model_version d w :
  let x := log_model_version_from_local self access_token model_name model_version d w in
  local_dirs x.2 = local_dirs w
  ∧ ∀ q, q ≠ os_path_join (cwd w) "versions.json" →
         local_files x.2 !! q = local_files w !! q.
Proof.
  intros x. subst x.
  unfold log_model_version_from_local, push_directory, get_version_list,
    get_json_artifact, read_remote_file.
  unfold mbind, M_bind. rewrite transfer_run.
  destruct (next_fault (faults w)).1; simpl; [done |].
  unfold store_directory. simpl. case_bool_decide; simpl; [| done].
  rewrite transfer_run. simpl.
  destruct (next_fault (next_fault (faults w)).2).1; simpl; [done |].
  unfold fetch. simpl.
  destruct (upload _ _ !! _) as [c|]; simpl; [| done].
  unfold lift. destruct c as [j| |]; simpl; [| done | done].
  destruct (append j (JStr model_version)) as [j'|e]; simpl; [| done].
  rewrite log_json_artifact_run.
  match goal with
  | |- context [stage_push_remove self access_token ?p ?c model_name None ?w0] =>
      pose proof (stage_push_remove_frame self access_token "versions.json" c model_name
                    None w0 eq_refl) as (_ & Hfiles & Hdirs & _)
  end.
  simpl in Hfiles, Hdirs. split; [exact Hdirs | exact Hfiles].
Qed.

End VersionRuns.


Section VersionLocal.

Variable self : MLGitClient.

Implicit Types a c d s v : string.








Lemma model_file_is_not_version_list d c :
  os_path_join d "model" ≠ os_path_join c "versions.json".
Proof.
  intros Heq. apply (f_equal basename) in Heq.
  by rewrite !basename_os_path_join in Heq.
Qed.


End VersionLocal.





(** X8: with a [pull_directory] that leaves the local directories and the
    working directory alone, a call of [get_model_version] leaves the
    directory [temp_model_version] in place, so that every later call
    raises [FileExistsError] at once and changes nothing. *)
Theorem get_model_version_blocks_later_calls :
  ∀ (pull_directory : string → string → string → option string → M unit)
    (self : MLGitClient) (model_name model_version model_name' model_version' : string)
    (w : World),
    (∀ a b c dest w0,
        local_dirs (pull_directory a b c dest w0).2 = local_dirs w0
        ∧ cwd (pull_directory a b c dest w0).2 = cwd w0) →
    let x := get_model_version pull_directory self model_name model_version w in
    get_model_version pull_directory self model_name' model_version' x.2
    = (Raise FileExistsError, x.2).
Proof.
  intros pull self m v m' v' w Hpull x.
  assert (cwd x.2 = cwd w
          ∧ exists_locally (os_path_join (cwd w) "temp_model_version") x.2 = true)
    as [Hcwd Hexists].
  { subst x. unfold get_model_version.
    rewrite bind_run. simpl. rewrite bind_run. unfold os_mkdir.
    destruct (exists_locally (os_path_join (cwd w) "temp_model_version") w) eqn:He;
      [done |].
    unfold parent_error. rewrite parent_is_dir_cwd by done.
    rewrite !bind_run.
    match goal with
    | |- context [pull ?a ?b ?c ?dest ?w0] =>
        destruct (Hpull a b c dest w0) as [Hdirs Hc];
        destruct (pull a b c dest w0) as [[[]|e] w1]
    end; simpl in *; rewrite Hc; (split; [done |]);
      unfold exists_locally, is_dir; rewrite Hdirs; simpl;
      rewrite (bool_decide_eq_true_2 (_ ∈ _)) by set_solver;
      by rewrite orb_true_r. }
  unfold get_model_version. rewrite bind_run. simpl. rewrite bind_run.
  unfold os_mkdir. by rewrite Hcwd, Hexists.
Qed.

Lemma get_model_version_blocks_later_calls_witness :
  let x := get_model_version pull_nothing acct "m" "v1" registry_with_v1 in
  get_model_version pull_nothing acct "m" "v1" x.2 = (Raise FileExistsError, x.2).
Proof.
  apply (get_model_version_blocks_later_calls pull_nothing acct "m" "v1" "m" "v1"
           registry_with_v1).
  intros a b c dest w0. split; reflexivity.
Defined.

(** ** The backtest merge: what it keeps *)

Lemma filter_index (P : Z → Prop) `{!∀ k, Decision (P k)} (rs : list row) :
  (filter (λ x : row, P x.1) rs).*1 = filter P rs.*1.
Proof.
  induction rs as [|x rs IH]; [done |].
  rewrite fmap_cons, !filter_cons. cbn beta.
  destruct (decide (P x.1)); rewrite ?fmap_cons, IH; done.
Qed.

(** X9: with a prior series read whose columns are those of the new
    series, in the same order, and a new series that repeats no key, a
    series logged at a version timestamp that no stored row's version
    timestamp exceeds overrides nothing: every stored row is kept as it is,
    and only rows with new keys are added. *)
Theorem newer_version_overrides_nothing :
  ∀ (self : MLGitClient) (access_token : string) (r : nat) (model_name : string)
    (version_timestamp : option stamp) (df prior : DataFrame) (w w' : World),
    let new := normalized_frame df version_timestamp in
    let ts := normalized_timestamp df version_timestamp in
    frames w !! r = Some df →
    get_model_backtest self model_name (set_frames (<[r := new]> (frames w)) w)
    = (Return prior, w') →
    columns prior = columns new →
    NoDup (index new) →
    (∀ pos (x : row) t_old t_new,
        column_position (LStr "version_timestamp") (columns prior) = Return pos →
        x ∈ rows prior → cell_at pos x = CTime t_old → ts = Timestamp t_new →
        (t_old ≤ t_new)%Z) →
    ∃ stored,
      log_model_backtest self access_token r model_name version_timestamp w
      = log_pandas_artifact self access_token stored "backtest" model_name None w'
      ∧ rows stored ≡ₚ rows prior ++ filter (λ x : row, x.1 ∉ index prior) (rows new)
      ∧ ∀ x : row, x ∈ rows prior → x ∈ rows stored.
Proof.
  intros self access_token r model_name version_timestamp df prior w w' new ts
    Hframe Hprior Hcolumns Hunique Hnewer.
  destruct (log_model_backtest_merge_run self access_token r model_name version_timestamp
              df prior w w' Hframe Hprior Hcolumns Hunique)
    as (pos & prior' & Hpos & Hindex & Hrows & Hlog & Hstored).
  fold new in Hpos, Hrows, Hlog, Hstored. fold ts in Hrows.
  assert (rows prior' = rows prior) as Hsame.
  { apply list_eq. intros i.
    destruct (rows prior !! i) as [x|] eqn:Hi.
    - specialize (Hrows i x Hi).
      destruct (override_mask (index new) ts pos x) eqn:Hmask; [| done].
      apply override_mask_spec in Hmask as (_ & t_old & t_new & Hold & Hts & Hlt & _).
      assert (t_old ≤ t_new)%Z; [| lia].
      apply (Hnewer pos x); [by rewrite Hcolumns | | done | done].
      by eapply list_elem_of_lookup_2.
    - apply lookup_ge_None. apply lookup_ge_None in Hi.
      assert (length (rows prior') = length (rows prior)) as ->; [| done].
      unfold index in Hindex. apply (f_equal length) in Hindex.
      by rewrite !length_fmap in Hindex. }
  eexists. split; [exact Hlog |].
  rewrite Hstored, Hsame.
  split; [apply merge_sort_Permutation |].
  intros x Hx. rewrite merge_sort_Permutation. apply elem_of_app. by left.
Qed.

Lemma newer_version_overrides_nothing_witness :
  ∃ stored,
    log_model_backtest acct "token" 0%nat "m" (Some (Timestamp 7)) merge_world
    = log_pandas_artifact acct "token" stored "backtest" "m" None
        (get_model_backtest acct "m" (merge_world_at 7)).2
    ∧ rows stored
      ≡ₚ rows stored_frame
         ++ filter (λ x : row, x.1 ∉ index stored_frame)
              (rows (normalized_frame new_backtest (Some (Timestamp 7))))
    ∧ ∀ x : row, x ∈ rows stored_frame → x ∈ rows stored.
Proof.
  apply (newer_version_overrides_nothing acct "token" 0%nat "m" (Some (Timestamp 7))
           new_backtest stored_frame merge_world
           (get_model_backtest acct "m" (merge_world_at 7)).2).
  - reflexivity.
  - vm_compute. reflexivity.
  - reflexivity.
  - apply (bool_decide_unpack _). vm_compute. exact I.
  - intros pos x t_old t_new Hpos Hx Hcell Hts.
    vm_compute in Hpos. injection Hpos as <-.
    vm_compute in Hts. injection Hts as <-.
    apply elem_of_cons in Hx as [-> | Hx]; [vm_compute in Hcell; injection Hcell as <-; lia |].
    apply elem_of_cons in Hx as [-> | Hx]; [vm_compute in Hcell; injection Hcell as <-; lia |].
    by apply elem_of_nil in Hx.
Defined.

(** X10: with a prior series read whose columns are those of the new
    series, in the same order, and a new series that repeats no key, the
    merge loses no stored key: the keys of the logged table are the stored
    keys and the new keys that were not stored; if the stored series
    repeats no key either, neither does the logged table. *)
Theorem merge_keeps_every_stored_key :
  ∀ (self : MLGitClient) (access_token : string) (r : nat) (model_name : string)
    (version_timestamp : option stamp) (df prior : DataFrame) (w w' : World),
    let new := normalized_frame df version_timestamp in
    frames w !! r = Some df →
    get_model_backtest self model_name (set_frames (<[r := new]> (frames w)) w)
    = (Return prior, w') →
    columns prior = columns new →
    NoDup (index new) →
    ∃ stored,
      log_model_backtest self access_token r model_name version_timestamp w
      = log_pandas_artifact self access_token stored "backtest" model_name None w'
      ∧ index stored ≡ₚ index prior ++ filter (λ k, k ∉ index prior) (index new)
      ∧ (∀ k, k ∈ index prior → k ∈ index stored)
      ∧ (NoDup (index prior) → NoDup (index stored)).
Proof.
  intros self access_token r model_name version_timestamp df prior w w' new
    Hframe Hprior Hcolumns Hunique.
  destruct (log_model_backtest_merge_run self access_token r model_name version_timestamp
              df prior w w' Hframe Hprior Hcolumns Hunique)
    as (pos & prior' & Hpos & Hindex & Hrows & Hlog & Hstored).
  fold new in Hpos, Hrows, Hlog, Hstored.
  eexists. split; [exact Hlog |].
  assert (index (sort_index (concat prior' (drop_keys (index prior) new)))
          ≡ₚ index prior ++ filter (λ k, k ∉ index prior) (index new)) as Hperm.
  { assert ((filter (λ x : row, x.1 ∉ index prior) (rows new)).*1
            = filter (λ k, k ∉ index prior) (rows new).*1) as Hf
      by exact (filter_index (λ k, k ∉ index prior) (rows new)).
    unfold index at 1 3. rewrite Hstored, merge_sort_Permutation, fmap_app, Hf.
    unfold index in Hindex. by rewrite Hindex. }
  split; [exact Hperm |].
  split.
  { intros k Hk. rewrite Hperm. apply elem_of_app. by left. }
  intros Hnd. rewrite Hperm. apply NoDup_app.
  split; [done |]. split.
  - intros k Hk [Hnot _]%list_elem_of_filter. done.
  - by apply NoDup_filter.
Qed.

Lemma merge_keeps_every_stored_key_witness :
  ∃ stored,
    log_model_backtest acct "token" 0%nat "m" (Some (Timestamp 3)) merge_world
    = log_pandas_artifact acct "token" stored "backtest" "m" None
        (get_model_backtest acct "m" (merge_world_at 3)).2
    ∧ index stored
      ≡ₚ index stored_frame
         ++ filter (λ k, k ∉ index stored_frame)
              (index (normalized_frame new_backtest (Some (Timestamp 3))))
    ∧ (∀ k, k ∈ index stored_frame → k ∈ index stored)
    ∧ (NoDup (index stored_frame) → NoDup (index stored)).
Proof.
  apply (merge_keeps_every_stored_key acct "token" 0%nat "m" (Some (Timestamp 3))
           new_backtest stored_frame merge_world
           (get_model_backtest acct "m" (merge_world_at 3)).2).
  - reflexivity.
  - vm_compute. reflexivity.
  - reflexivity.
  - apply (bool_decide_unpack _). vm_compute. exact I.
Defined.

Lemma lacks_split c s x y : lacks c s = true → s ≠ x +:+ String c y.
Proof.
  revert x. induction s as [|c' s IH]; intros [|c'' x] Hs; simpl in *; try done.
  - intros [= -> _]. by rewrite bool_decide_eq_true_2 in Hs.
  - apply andb_prop in Hs as [_ Hs]. intros [= _ Heq]. by eapply IH.
Qed.

(** Reading a header makes no name [version_timestamp] that was not
    there: a name is kept, numbered after a dot, or replaced by
    ["Unnamed: i"]. *)
Lemma dedup_names_version seen names :
  "version_timestamp" ∉ names → "version_timestamp" ∉ dedup_names seen names.
Proof.
  revert seen. induction names as [|name names IH]; intros seen Hn; [done |].
  apply not_elem_of_cons in Hn as [Hname Hn]. simpl.
  apply not_elem_of_cons. split; [| by apply IH].
  case_bool_decide; [done |].
  apply (lacks_split "." "version_timestamp" name _ eq_refl).
Qed.

Lemma imap_unnamed_version (f : nat → nat) names :
  "version_timestamp" ∉ names → "version_timestamp" ∉ imap (unnamed ∘ f) names.
Proof.
  revert f. induction names as [|name names IH]; intros f Hn; [done |].
  apply not_elem_of_cons in Hn as [Hname Hn]. simpl.
  apply not_elem_of_cons. split; [| by apply (IH (f ∘ S))].
  unfold unnamed. by case_bool_decide.
Qed.

Lemma read_csv_header t :
  csv_index_label (read_csv t) :: csv_columns (read_csv t)
  = read_header (csv_index_label t :: csv_columns t).
Proof. reflexivity. Qed.

Lemma read_backtest_without_version_column t :
  "version_timestamp" ∉ csv_index_label t :: csv_columns t →
  read_backtest (FCsv t) = Raise KeyError.
Proof.
  intros Hn. unfold read_backtest, parse_csv.
  cbn [mbind outcome_bind]. rewrite read_csv_header.
  rewrite (bool_decide_eq_false_2 ("version_timestamp" ∈ _)); [done |].
  unfold read_header. apply dedup_names_version.
  by apply (imap_unnamed_version id).
Qed.

(** X11: a stored backtest without a [version_timestamp] column cannot be
    read by [get_model_backtest], which raises [KeyError];
    [log_model_backtest] takes that for a missing backtest and replaces the
    stored table by the new series alone. *)
Theorem stored_backtest_without_version_column_is_replaced :
  ∀ (self : MLGitClient) (access_token : string) (r : nat) (model_name : string)
    (version_timestamp : option stamp) (df : DataFrame) (t : CsvTable) (w : World),
    frames w !! r = Some df →
    remote w !! backtest_path self model_name = Some (FCsv t) →
    "version_timestamp" ∉ csv_index_label t :: csv_columns t →
    os_path_join (cwd w) "backtest.csv" ∉ local_dirs w →
    fault_at 0 (faults w) = None →
    fault_at 1 (faults w) = None →
    ∃ w0 w1,
      get_model_backtest self model_name w = (Raise KeyError, w0)
      ∧ log_model_backtest self access_token r model_name version_timestamp w
        = (Return (), w1)
      ∧ remote w1 !! backtest_path self model_name
        = Some (FCsv (to_csv (normalized_frame df version_timestamp))).
Proof.
  intros self access_token r model_name version_timestamp df t w
    Hframe Hstored Hcol Hdir Hf0 Hf1.
  unfold fault_at in Hf0, Hf1. simpl in Hf0, Hf1.
  eexists. eexists. split.
  { rewrite get_model_backtest_run. cbv zeta.
    by rewrite Hf0, Hstored, read_backtest_without_version_column. }
  rewrite (log_model_backtest_run _ _ _ _ _ _ _ Hframe). cbv zeta.
  rewrite get_model_backtest_run. cbv zeta. simpl.
  rewrite Hf0, Hstored, read_backtest_without_version_column by done.
  rewrite log_pandas_artifact_run.
  rewrite (stage_push_remove_at self access_token _ "backtest.csv") by done.
  simpl. rewrite Hf1.
  split; [done |]. simpl.
  pose proof (backtest_upload_path self model_name (cwd w)) as Hp. simpl in Hp.
  by rewrite Hp, lookup_insert_eq.
Qed.

Lemma stored_backtest_without_version_column_is_replaced_witness :
  ∃ w0 w1,
    get_model_backtest acct "m" legacy_world = (Raise KeyError, w0)
    ∧ log_model_backtest acct "token" 0%nat "m" None legacy_world = (Return (), w1)
    ∧ remote w1 !! backtest_path acct "m"
      = Some (FCsv (to_csv (normalized_frame new_backtest None))).
Proof.
  apply (stored_backtest_without_version_column_is_replaced acct "token" 0%nat "m" None
           new_backtest legacy_backtest legacy_world).
  - reflexivity.
  - vm_compute. reflexivity.
  - apply (bool_decide_unpack _). vm_compute. exact I.
  - vm_compute. set_solver.
  - reflexivity.
  - reflexivity.
Defined.

(** X12: [log_model_backtest] writes nothing but the backtest: whether
    it returns or raises, every other remote file, every local file but
    the staging file and the local directories are as before. *)
Theorem log_model_backtest_touches_only_the_backtest :
  ∀ (self : MLGitClient) (access_token : string) (r : nat) (model_name : string)
    (version_timestamp : option stamp) (w : World),
    let x := log_model_backtest self access_token r model_name version_timestamp w in
    (∀ k, k ≠ backtest_path self model_name → remote x.2 !! k = remote w !! k)
    ∧ (∀ q, q ≠ os_path_join (cwd w) "backtest.csv" →
            local_files x.2 !! q = local_files w !! q)
    ∧ local_dirs x.2 = local_dirs w.
Proof.
  intros self access_token r model_name version_timestamp w x. subst x.
  destruct (frames w !! r) as [df|] eqn:Hframe.
  2: { assert (log_model_backtest self access_token r model_name version_timestamp w
               = (Raise NameError, w)) as ->; [| done].
       unfold log_model_backtest. rewrite bind_run. unfold deref at 1.
       by rewrite Hframe. }
  rewrite (log_model_backtest_run _ _ _ _ _ _ _ Hframe). cbv zeta.
  rewrite get_model_backtest_run. cbv zeta.
  set (w0 := set_faults (next_fault (faults w)).2
               (set_frames (<[r := normalized_frame df version_timestamp]> (frames w)) w)).
  assert (∀ new,
            let y := log_pandas_artifact self access_token new "backtest" model_name
                       None w0 in
            (∀ k, k ≠ backtest_path self model_name → remote y.2 !! k = remote w !! k)
            ∧ (∀ q, q ≠ os_path_join (cwd w) "backtest.csv" →
                    local_files y.2 !! q = local_files w !! q)
            ∧ local_dirs y.2 = local_dirs w) as Hpush.
  { intros new y. subst y. rewrite log_pandas_artifact_run.
    destruct (stage_push_remove_frame self access_token "backtest.csv"
                (FCsv (to_csv new)) model_name None w0 eq_refl)
      as (Hr & Hl & Hd & _).
    split; [exact Hr |]. split; [exact Hl | exact Hd]. }
  simpl. fold w0.
  destruct (next_fault (faults w)).1; [apply Hpush |].
  destruct (remote w !! backtest_path self model_name) as [c|]; [| apply Hpush].
  destruct (read_backtest c) as [prior|e]; [| apply Hpush].
  destruct (merge_backtest prior _ _); [apply Hpush | done].
Qed.

(** ** Failures, reads and addressing *)

Section Atomicity.

Variable self : MLGitClient.

Lemma stage_push_remove_remote access_token p c model_name model_version w :
  let x := stage_push_remove self access_token p c model_name model_version w in
  x.1 = Return () ∨ remote x.2 = remote w.
Proof.
  intros x. subst x. rewrite stage_push_remove_run.
  destruct (write_error p w); [by right |].
  destruct (next_fault (faults w)).1; [by right | by left].
Qed.

End Atomicity.

(** X14: logging an artifact or a backtest changes the remote store only
    in a call that returns: whenever [log_json_artifact],
    [log_pandas_artifact] or [log_model_backtest] raises, every remote file
    is as it was. *)
Theorem failed_log_changes_no_remote_file :
  ∀ (self : MLGitClient) (access_token : string) (j : json) (df : DataFrame) (r : nat)
    (artifact_name model_name : string) (model_version : option string)
    (version_timestamp : option stamp) (w : World),
    let xj := log_json_artifact self access_token j artifact_name model_name
                model_version w in
    let xc := log_pandas_artifact self access_token df artifact_name model_name
                model_version w in
    let xb := log_model_backtest self access_token r model_name version_timestamp w in
    (xj.1 = Return () ∨ remote xj.2 = remote w)
    ∧ (xc.1 = Return () ∨ remote xc.2 = remote w)
    ∧ (xb.1 = Return () ∨ remote xb.2 = remote w).
Proof.
  intros self access_token j df r artifact_name model_name model_version
    version_timestamp w xj xc xb. subst xj xc xb.
  split; [rewrite log_json_artifact_run; apply stage_push_remove_remote |].
  split; [rewrite log_pandas_artifact_run; apply stage_push_remove_remote |].
  destruct (frames w !! r) as [df0|] eqn:Hframe.
  2: { assert (log_model_backtest self access_token r model_name version_timestamp w
               = (Raise NameError, w)) as ->; [| by right].
       unfold log_model_backtest. rewrite bind_run. unfold deref at 1.
       by rewrite Hframe. }
  rewrite (log_model_backtest_run _ _ _ _ _ _ _ Hframe). cbv zeta.
  rewrite get_model_backtest_run. cbv zeta.
  set (w0 := set_faults (next_fault (faults w)).2
               (set_frames (<[r := normalized_frame df0 version_timestamp]> (frames w))
                  w)).
  assert (∀ new,
            let y := log_pandas_artifact self access_token new "backtest" model_name
                       None w0 in
            y.1 = Return () ∨ remote y.2 = remote w) as Hpush.
  { intros new y. subst y. rewrite log_pandas_artifact_run.
    apply (stage_push_remove_remote self access_token _ _ model_name None w0). }
  simpl. fold w0.
  destruct (next_fault (faults w)).1; [apply Hpush |].
  destruct (remote w !! backtest_path self model_name) as [c|]; [| apply Hpush].
  destruct (read_backtest c) as [prior|e]; [| apply Hpush].
  destruct (merge_backtest prior _ _); [apply Hpush | by right].
Qed.

(** X15: the getters write nothing: whether they return or raise,
    [get_json_artifact], [get_version_list], [get_pandas_artifact] and
    [get_model_backtest] leave the world as it was, but for the one entry
    of the fault schedule their read takes. *)
Theorem getters_write_nothing :
  ∀ (self : MLGitClient) (artifact_name model_name : string)
    (model_version : option string) (w : World),
    let w' := set_faults (next_fault (faults w)).2 w in
    (get_json_artifact self artifact_name model_name model_version w).2 = w'
    ∧ (get_version_list self model_name w).2 = w'
    ∧ (get_pandas_artifact self artifact_name model_name model_version w).2 = w'
    ∧ (get_model_backtest self model_name w).2 = w'.
Proof.
  intros self artifact_name model_name model_version w w'. subst w'.
  assert (∀ a v, (get_json_artifact self a model_name v w).2
                 = set_faults (next_fault (faults w)).2 w) as Hjson.
  { intros a v. rewrite get_json_artifact_run. cbv zeta.
    destruct (next_fault (faults w)).1; [done |].
    by destruct (remote w !! _) as [[| |]|]. }
  split; [apply Hjson |]. split; [apply Hjson |]. split.
  - rewrite get_pandas_artifact_run. cbv zeta.
    destruct (next_fault (faults w)).1; [done |].
    by destruct (remote w !! _) as [[| |]|].
  - rewrite get_model_backtest_run. cbv zeta.
    by destruct (next_fault (faults w)).1.
Qed.


Section Injective.

Implicit Types s x y : string.

Lemma string_app_inv_head p x y : p +:+ x = p +:+ y → x = y.
Proof. induction p as [|c p IH]; simpl; [done |]. intros [= H]. by apply IH. Qed.

(** A path is split at its first slash in one way only. *)
Lemma segment_split_inj x x' s s' :
  no_slash x = true → no_slash x' = true →
  x +:+ "/" +:+ s = x' +:+ "/" +:+ s' → x = x' ∧ s = s'.
Proof.
  revert x'. induction x as [|c x IH]; intros [|c' x'] Hx Hx'; simpl in *.
  - by intros [= ->].
  - intros [= <- _]. by rewrite bool_decide_eq_true_2 in Hx'.
  - intros [= -> _]. by rewrite bool_decide_eq_true_2 in Hx.
  - apply andb_prop in Hx as [_ Hx]. apply andb_prop in Hx' as [_ Hx'].
    intros [= -> H]. destruct (IH x' Hx Hx' H) as [-> ->]. done.
Qed.

End Injective.

(** X17: artifacts never share a remote path: with the model name, the
    version and the artifact name free of slashes, the path
    [model_remote_path] gives an artifact determines the model, the version
    (or that there is none) and the artifact name. *)
Theorem model_remote_path_is_injective :
  ∀ (self : MLGitClient) (m m' a a' : string) (v v' : option string),
    no_slash m = true → no_slash m' = true →
    no_slash a = true → no_slash a' = true →
    no_slash (default "" v) = true → no_slash (default "" v') = true →
    model_remote_path self m v (Some a) = model_remote_path self m' v' (Some a') →
    m = m' ∧ v = v' ∧ a = a'.
Proof.
  intros self m m' a a' v v' Hm Hm' Ha Ha' Hv Hv' Heq.
  assert (join "/" (omap id [Some m; v; Some a]) = join "/" (omap id [Some m'; v'; Some a']))
    as Hrest.
  { unfold model_remote_path, join in *.
    destruct (registry_dpath self) as [root|]; simpl in *; [| done].
    destruct v as [s|], v' as [s'|]; simpl in *;
      apply (string_app_inv_head root) in Heq; by injection Heq as ->. }
  clear Heq. unfold join in Hrest.
  destruct v as [s|], v' as [s'|]; simpl in *.
  - destruct (segment_split_inj m m' _ _ Hm Hm' Hrest) as [-> Hrest'].
    by destruct (segment_split_inj s s' _ _ Hv Hv' Hrest') as [-> ->].
  - destruct (segment_split_inj m m' _ _ Hm Hm' Hrest) as [-> Hrest'].
    symmetry in Hrest'. by apply no_slash_split in Hrest'.
  - destruct (segment_split_inj m m' _ _ Hm Hm' Hrest) as [-> Hrest'].
    by apply no_slash_split in Hrest'.
  - by destruct (segment_split_inj m m' _ _ Hm Hm' Hrest) as [-> ->].
Qed.

Lemma model_remote_path_is_injective_witness :
  "m" = "m" ∧ Some "v1" = Some "v1" ∧ "a" = "a".
Proof.
  apply (model_remote_path_is_injective acct "m" "m" "a" "a" (Some "v1") (Some "v1"));
    reflexivity.
Defined.

Example slash_in_artifact_name_collides :
  model_remote_path acct "m" None (Some "v1/a")
  = model_remote_path acct "m" (Some "v1") (Some "a").
Proof. reflexivity. Qed.

(** ** Failures *)

Section Failures.

Variable self : MLGitClient.

Lemma read_failure_get_json e artifact_name model_name model_version w :
  read_failure json_loads
    (model_remote_path self model_name model_version (Some (artifact_name +:+ ".json"))) w
  = Some e →
  (get_json_artifact self artifact_name model_name model_version w).1 = Raise e.
Proof.
  unfold read_failure, fault_at. simpl. rewrite get_json_artifact_run. cbv zeta.
  destruct (next_fault (faults w)).1 as [e0|]; simpl; [by intros [= ->] |].
  destruct (remote w !! _) as [c|]; simpl; [| by intros [= <-]].
  destruct (json_loads c); [done | by intros [= ->]].
Qed.

Lemma read_failure_get_pandas e artifact_name model_name model_version w :
  read_failure parse_csv
    (model_remote_path self model_name model_version (Some (artifact_name +:+ ".csv"))) w
  = Some e →
  (get_pandas_artifact self artifact_name model_name model_version w).1 = Raise e.
Proof.
  unfold read_failure, fault_at. simpl. rewrite get_pandas_artifact_run. cbv zeta.
  destruct (next_fault (faults w)).1 as [e0|]; simpl; [by intros [= ->] |].
  destruct (remote w !! _) as [c|]; simpl; [| by intros [= <-]].
  destruct (parse_csv c); [done | by intros [= ->]].
Qed.

Lemma read_failure_get_backtest e model_name w :
  read_failure read_backtest (backtest_path self model_name) w = Some e →
  get_model_backtest self model_name w
  = (Raise e, set_faults (next_fault (faults w)).2 w).
Proof.
  unfold read_failure, fault_at. simpl. rewrite get_model_backtest_run. cbv zeta.
  destruct (next_fault (faults w)).1 as [e0|]; simpl; [by intros [= ->] |].
  destruct (remote w !! _) as [c|]; simpl; [| by intros [= <-]].
  destruct (read_backtest c); [done | by intros [= ->]].
Qed.

Lemma log_failure_stage e access_token p c model_name model_version w :
  log_failure p w = Some e →
  (stage_push_remove self access_token p c model_name model_version w).1 = Raise e.
Proof.
  unfold log_failure, fault_at. simpl. rewrite stage_push_remove_run.
  destruct (write_error p w) as [e0|]; [by intros [= ->] |].
  destruct (next_fault (faults w)).1 as [e0|]; [by intros [= ->] | done].
Qed.

(** The bare [except]: whatever the prior read raises, the new series is
    logged alone. *)
Lemma prior_read_failure_is_caught e access_token r model_name version_timestamp df w :
  frames w !! r = Some df →
  read_failure read_backtest (backtest_path self model_name) w = Some e →
  log_model_backtest self access_token r model_name version_timestamp w
  = log_pandas_artifact self access_token (normalized_frame df version_timestamp)
      "backtest" model_name None
      (set_faults (next_fault (faults w)).2
         (set_frames (<[r := normalized_frame df version_timestamp]> (frames w)) w)).
Proof.
  intros Hr Hfail.
  rewrite (log_model_backtest_run self access_token r model_name version_timestamp df w Hr).
  cbv zeta.
  by rewrite (read_failure_get_backtest e model_name
                (set_frames (<[r := normalized_frame df version_timestamp]> (frames w)) w)).
Qed.

(** After the prior read, nothing is taken away: a merge that raises is
    the failure of the call, and so is a failure of the final log. *)
Lemma log_model_backtest_later_failures access_token r model_name version_timestamp df w :
  frames w !! r = Some df →
  let df' := normalized_frame df version_timestamp in
  let ts := normalized_timestamp df version_timestamp in
  let w0 := set_faults (next_fault (faults w)).2
              (set_frames (<[r := df']> (frames w)) w) in
  let x := log_model_backtest self access_token r model_name version_timestamp w in
  (∀ e c prior,
      fault_at 0 (faults w) = None →
      remote w !! backtest_path self model_name = Some c →
      read_backtest c = Return prior →
      merge_backtest prior df' ts = Raise e →
      x = (Raise e, w0))
  ∧ (∀ e,
       log_failure (os_path_join (cwd w) "backtest.csv") w0 = Some e →
       x.1 = Raise e
       ∨ ∃ c prior e',
           remote w !! backtest_path self model_name = Some c
           ∧ read_backtest c = Return prior
           ∧ merge_backtest prior df' ts = Raise e'
           ∧ x.1 = Raise e').
Proof.
  intros Hr df' ts w0 x. subst x.
  rewrite (log_model_backtest_run self access_token r model_name version_timestamp df w Hr).
  cbv zeta. rewrite get_model_backtest_run. cbv zeta. fold df' ts.
  change (set_faults (next_fault (faults (set_frames (<[r:=df']> (frames w)) w))).2
            (set_frames (<[r:=df']> (frames w)) w)) with w0.
  change (faults (set_frames (<[r:=df']> (frames w)) w)) with (faults w).
  change (remote (set_frames (<[r:=df']> (frames w)) w)) with (remote w).
  split.
  - intros e c prior Hf Hc Hread Hmerge.
    unfold fault_at in Hf. simpl in Hf. by rewrite Hf, Hc, Hread, Hmerge.
  - intros e Hlog.
    assert (∀ new, (log_pandas_artifact self access_token new "backtest" model_name None
                      w0).1 = Raise e) as Hpush.
    { intros new. rewrite log_pandas_artifact_run. by apply log_failure_stage. }
    destruct (next_fault (faults w)).1; [by left |].
    destruct (remote w !! backtest_path self model_name) as [c|] eqn:Hc; [| by left].
    destruct (read_backtest c) as [prior|e0] eqn:Hread; [| by left].
    destruct (merge_backtest prior df' ts) as [new|e'] eqn:Hmerge; [by left |].
    right. by exists c, prior, e'.
Qed.

(** [log_model_version_from_local]: the failure of the directory push,
    of the read of the version list, of the append and of the log of the
    new list. *)
Lemma log_model_version_from_local_failures access_token model_name model_version d w :
  let x := log_model_version_from_local self access_token model_name model_version d w in
  let push := push_directory access_token (repo_name self) d
                (model_remote_path self model_name (Some model_version) None) 120 w in
  (∀ e, fault_at 0 (faults w) = Some e → x.1 = Raise e)
  ∧ (fault_at 0 (faults w) = None → d ∉ local_dirs w → x.1 = Raise FileNotFoundError)
  ∧ (∀ e, push.1 = Return () →
          read_failure json_loads (versions_path self model_name) push.2 = Some e →
          x.1 = Raise e)
  ∧ (∀ e j w2, push.1 = Return () →
          get_version_list self model_name push.2 = (Return j, w2) →
          append j (JStr model_version) = Raise e →
          x = (Raise e, w2))
  ∧ (∀ e j j' w2, push.1 = Return () →
          get_version_list self model_name push.2 = (Return j, w2) →
          append j (JStr model_version) = Return j' →
          log_failure (os_path_join (cwd w2) "versions.json") w2 = Some e →
          x.1 = Raise e).
Proof.
  intros x push. subst x.
  assert (log_model_version_from_local self access_token model_name model_version d w
          = match push with
            | (Return _, w1) =>
                match get_version_list self model_name w1 with
                | (Return j, w2) =>
                    match append j (JStr model_version) with
                    | Return j' =>
                        log_json_artifact self access_token j' "versions" model_name None
                          w2
                    | Raise e => (Raise e, w2)
                    end
                | (Raise e, w2) => (Raise e, w2)
                end
            | (Raise e, w1) => (Raise e, w1)
            end) as Hrun.
  { unfold log_model_version_from_local. rewrite bind_run. fold push.
    destruct push as [[[]|e] w1]; [| done].
    rewrite bind_run.
    destruct (get_version_list self model_name w1) as [[j|e] w2]; [| done].
    rewrite bind_run. unfold lift.
    by destruct (append j (JStr model_version)). }
  rewrite Hrun. clear Hrun.
  assert (push = match fault_at 0 (faults w) with
                 | Some e => (Raise e, set_faults (next_fault (faults w)).2 w)
                 | None =>
                     store_directory d
                       (model_remote_path self model_name (Some model_version) None)
                       (set_faults (next_fault (faults w)).2 w)
                 end) as Hpush.
  { subst push. unfold push_directory. rewrite bind_run, transfer_run.
    unfold fault_at. simpl. by destruct (next_fault (faults w)).1. }
  split; [| split; [| split; [| split]]].
  - intros e Hf. rewrite Hpush, Hf. done.
  - intros Hf Hd. rewrite Hpush, Hf. unfold store_directory. simpl.
    by rewrite bool_decide_eq_false_2.
  - intros e Hok Hfail. destruct push as [[[]|e0] w1]; [| done]. simpl in *.
    unfold get_version_list.
    pose proof (read_failure_get_json e "versions" model_name None w1 Hfail) as Hget.
    by destruct (get_json_artifact self "versions" model_name None w1) as [[j|e1] w2];
      simplify_eq/=.
  - intros e j w2 Hok Hget Happend. destruct push as [[[]|e0] w1]; [| done]. simpl in *.
    by rewrite Hget, Happend.
  - intros e j j' w2 Hok Hget Happend Hlog.
    destruct push as [[[]|e0] w1]; [| done]. simpl in *.
    rewrite Hget, Happend, log_json_artifact_run. by apply log_failure_stage.
Qed.

(** [log_model_version]: the failure of each of its steps, the earlier
    ones having returned, is the failure of the call. *)
Lemma log_model_version_failures access_token pickable_model model_name model_version w :
  let x := log_model_version self access_token pickable_model model_name model_version w in
  let paths := make_model_version_local_paths model_version w in
  (∀ e, paths.1 = Raise e → x = (Raise e, paths.2))
  ∧ (∀ e d f, paths.1 = Return (d, f) → write_error f paths.2 = Some e →
              x = (Raise e, paths.2))
  ∧ (∀ e d f w2 w3, paths.1 = Return (d, f) →
        save pickable_model f paths.2 = (Return (), w2) →
        log_model_version_from_local self access_token model_name model_version d w2
        = (Raise e, w3) →
        x = (Raise e, w3))
  ∧ (∀ e d f w2 w3 w4, paths.1 = Return (d, f) →
        save pickable_model f paths.2 = (Return (), w2) →
        log_model_version_from_local self access_token model_name model_version d w2
        = (Return (), w3) →
        shutil_rmtree d w3 = (Raise e, w4) →
        x = (Raise e, w4)).
Proof.
  intros x paths. subst x. unfold log_model_version. rewrite bind_run. fold paths.
  destruct paths as [[[d f]|e0] w1]; simpl.
  - split; [done |]. split; [| split].
    + intros e d' f' [= <- <-] Hwrite. rewrite bind_run. unfold save.
      by rewrite write_file_run, Hwrite.
    + intros e d' f' w2 w3 [= <- <-] Hsave Hlog. rewrite bind_run, Hsave.
      by rewrite bind_run, Hlog.
    + intros e d' f' w2 w3 w4 [= <- <-] Hsave Hlog Hrm. rewrite bind_run, Hsave.
      by rewrite bind_run, Hlog.
  - split; [by intros e [= ->] |]. by repeat split.
Qed.

End Failures.

(** [get_model_version]: a failure of [os.mkdir] or of [pull_directory]
    is the failure of the call. *)
Lemma get_model_version_failures
    (pull_directory : string → string → string → option string → M unit)
    self model_name model_version w :
  let x := get_model_version pull_directory self model_name model_version w in
  let made := os_mkdir (os_path_join (cwd w) "temp_model_version") w in
  (∀ e, made.1 = Raise e → x = (Raise e, made.2))
  ∧ (∀ e dest w2, made.1 = Return dest →
        pull_directory (user_name self) (repo_name self)
          (model_remote_path self model_name (Some model_version) None) dest made.2
        = (Raise e, w2) →
        x = (Raise e, w2)).
Proof.
  intros x made. subst x. unfold get_model_version.
  rewrite bind_run. simpl. rewrite bind_run. fold made.
  destruct made as [[dest|e0] w1]; simpl.
  - split; [done |]. intros e dest' w2 [= <-] Hpull. by rewrite bind_run, Hpull.
  - split; [by intros e [= ->] | done].
Qed.

(** C3, as the code has it: the bare [except] of [log_model_backtest]
    takes every failure of the prior-backtest read (of the transport, a
    timeout, a missing file, a file that does not parse, a missing
    column) as a first write and logs the new series alone.  Every other
    failure is the failure of the call: of a getter's read; of staging or
    pushing an artifact; in [log_model_backtest] of the merge and of the
    final log; in [log_model_version] of making the directory, of saving
    the model, of the directory push, of the read of the version list, of
    the append, of the log of the new list and of removing the directory;
    in [get_model_version] of [os.mkdir] and of [pull_directory]. *)
Theorem prior_read_failure_of_any_kind_is_first_write :
  ∀ (pull_directory : string → string → string → option string → M unit)
    (self : MLGitClient) (access_token : string) (r : nat)
    (model_name model_version : string) (version_timestamp : option stamp)
    (df : DataFrame) (pickable_model : PickableObject) (d : string) (w : World),
    let df' := normalized_frame df version_timestamp in
    let ts := normalized_timestamp df version_timestamp in
    let w0 := set_faults (next_fault (faults w)).2
                (set_frames (<[r := df']> (frames w)) w) in
    let logged := log_model_backtest self access_token r model_name version_timestamp w in
    let push := push_directory access_token (repo_name self) d
                  (model_remote_path self model_name (Some model_version) None) 120 w in
    let from_local :=
      log_model_version_from_local self access_token model_name model_version d w in
    let paths := make_model_version_local_paths model_version w in
    let version :=
      log_model_version self access_token pickable_model model_name model_version w in
    let made := os_mkdir (os_path_join (cwd w) "temp_model_version") w in
    let got := get_model_version pull_directory self model_name model_version w in
    (frames w !! r = Some df →
     (∀ e, read_failure read_backtest (backtest_path self model_name) w = Some e →
           logged = log_pandas_artifact self access_token df' "backtest" model_name None w0)
     ∧ (∀ e c prior,
          fault_at 0 (faults w) = None →
          remote w !! backtest_path self model_name = Some c →
          read_backtest c = Return prior →
          merge_backtest prior df' ts = Raise e →
          logged = (Raise e, w0))
     ∧ (∀ e,
          log_failure (os_path_join (cwd w) "backtest.csv") w0 = Some e →
          logged.1 = Raise e
          ∨ ∃ c prior e',
              remote w !! backtest_path self model_name = Some c
              ∧ read_backtest c = Return prior
              ∧ merge_backtest prior df' ts = Raise e'
              ∧ logged.1 = Raise e'))
    ∧ (∀ e artifact_name version,
         read_failure json_loads
           (model_remote_path self model_name version (Some (artifact_name +:+ ".json"))) w
         = Some e →
         (get_json_artifact self artifact_name model_name version w).1 = Raise e)
    ∧ (∀ e, read_failure json_loads (versions_path self model_name) w = Some e →
            (get_version_list self model_name w).1 = Raise e)
    ∧ (∀ e artifact_name version,
         read_failure parse_csv
           (model_remote_path self model_name version (Some (artifact_name +:+ ".csv"))) w
         = Some e →
         (get_pandas_artifact self artifact_name model_name version w).1 = Raise e)
    ∧ (∀ e, read_failure read_backtest (backtest_path self model_name) w = Some e →
            (get_model_backtest self model_name w).1 = Raise e)
    ∧ (∀ e j artifact_name version,
         log_failure (os_path_join (cwd w) (artifact_name +:+ ".json")) w = Some e →
         (log_json_artifact self access_token j artifact_name model_name version w).1
         = Raise e)
    ∧ (∀ e artifact artifact_name version,
         log_failure (os_path_join (cwd w) (artifact_name +:+ ".csv")) w = Some e →
         (log_pandas_artifact self access_token artifact artifact_name model_name version
            w).1
         = Raise e)
    ∧ ((∀ e, fault_at 0 (faults w) = Some e → from_local.1 = Raise e)
       ∧ (fault_at 0 (faults w) = None → d ∉ local_dirs w →
          from_local.1 = Raise FileNotFoundError)
       ∧ (∀ e, push.1 = Return () →
               read_failure json_loads (versions_path self model_name) push.2 = Some e →
               from_local.1 = Raise e)
       ∧ (∀ e j w2, push.1 = Return () →
               get_version_list self model_name push.2 = (Return j, w2) →
               append j (JStr model_version) = Raise e →
               from_local = (Raise e, w2))
       ∧ (∀ e j j' w2, push.1 = Return () →
               get_version_list self model_name push.2 = (Return j, w2) →
               append j (JStr model_version) = Return j' →
               log_failure (os_path_join (cwd w2) "versions.json") w2 = Some e →
               from_local.1 = Raise e))
    ∧ ((∀ e, paths.1 = Raise e → version = (Raise e, paths.2))
       ∧ (∀ e d' f, paths.1 = Return (d', f) → write_error f paths.2 = Some e →
                    version = (Raise e, paths.2))
       ∧ (∀ e d' f w2 w3, paths.1 = Return (d', f) →
             save pickable_model f paths.2 = (Return (), w2) →
             log_model_version_from_local self access_token model_name model_version d' w2
             = (Raise e, w3) →
             version = (Raise e, w3))
       ∧ (∀ e d' f w2 w3 w4, paths.1 = Return (d', f) →
             save pickable_model f paths.2 = (Return (), w2) →
             log_model_version_from_local self access_token model_name model_version d' w2
             = (Return (), w3) →
             shutil_rmtree d' w3 = (Raise e, w4) →
             version = (Raise e, w4)))
    ∧ ((∀ e, made.1 = Raise e → got = (Raise e, made.2))
       ∧ (∀ e dest w2, made.1 = Return dest →
             pull_directory (user_name self) (repo_name self)
               (model_remote_path self model_name (Some model_version) None) dest made.2
             = (Raise e, w2) →
             got = (Raise e, w2))).
Proof.
  intros pull self access_token r model_name model_version version_timestamp df
    pickable_model d w df' ts w0 logged push from_local paths version made got.
  split.
  { intros Hr. split.
    - intros e Hfail. by apply (prior_read_failure_is_caught self e).
    - apply (log_model_backtest_later_failures self access_token r model_name
               version_timestamp df w Hr). }
  split; [intros e a v; apply read_failure_get_json |].
  split; [intros e Hfail; exact (read_failure_get_json self e "versions" model_name None w Hfail) |].
  split; [intros e a v; apply read_failure_get_pandas |].
  split.
  { intros e Hfail. by rewrite (read_failure_get_backtest self e model_name w Hfail). }
  split.
  { intros e j a v Hlog. rewrite log_json_artifact_run. by apply log_failure_stage. }
  split.
  { intros e a n v Hlog. rewrite log_pandas_artifact_run. by apply log_failure_stage. }
  split; [apply log_model_version_from_local_failures |].
  split; [apply log_model_version_failures |].
  apply get_model_version_failures.
Qed.

(** C3, refuted as stated: the prior read fails with a timeout, not with
    [NotFound]; the call returns all the same, and the stored series is
    replaced by the new one alone. *)
Lemma timeout_of_prior_read_is_swallowed :
  let r := log_model_backtest acct "token" 0%nat "m" (Some (Timestamp 3))
             timeout_on_prior_read in
  (get_model_backtest acct "m" timeout_on_prior_read).1 = Raise Timeout
  ∧ r.1 = Return ()
  ∧ remote r.2 !! "registry/m/backtest.csv"
    = Some (FCsv (mkCsvTable "date" ["p"; "version_timestamp"]
                    [(1, [CNum 11; CTime 3]); (3, [CNum 31; CTime 3])])).
Proof. vm_compute. done. Qed.

Lemma prior_read_failure_of_any_kind_is_first_write_witness :
  log_model_backtest acct "token" 0%nat "m" (Some (Timestamp 3)) timeout_on_prior_read
  = log_pandas_artifact acct "token" (normalized_frame new_backtest (Some (Timestamp 3)))
      "backtest" "m" None
      (set_faults []
         (set_frames (<[0%nat := normalized_frame new_backtest (Some (Timestamp 3))]>
                        (frames timeout_on_prior_read))
            timeout_on_prior_read)).
Proof.
  destruct (prior_read_failure_of_any_kind_is_first_write pull_nothing acct "token" 0%nat
              "m" "v1" (Some (Timestamp 3)) new_backtest "weights" "/home/user/v1"
              timeout_on_prior_read)
    as [Hbacktest _].
  destruct (Hbacktest eq_refl) as [Hcatch _].
  apply (Hcatch Timeout). reflexivity.
Defined.
